(** * whisper_transcribe.py: a command-line adapter around a speech model

    A shallow embedding of [src/services/whisper_transcribe.py].  The script
    registers a virtual-environment directory, imports the inference
    library, picks a device, runs one transcription, reshapes the result and
    prints it as JSON; every handled failure is printed as a JSON error
    payload followed by [sys.exit(1)].

    Python values are an inductive type of JSON-like data, strings are
    sequences of Unicode code points, and the script's effects (standard
    output, standard error, [site] directories, calls into the operating
    system and the inference library) are threaded through a state monad
    with two abrupt exits: a raised exception and [SystemExit]. *)

From Stdlib Require Import List String Ascii ZArith NArith Bool Lia.
From Stdlib Require Import DecimalString.
From Stdlib Require Import Floats.SpecFloat.
Import ListNotations.

Local Open Scope list_scope.

(* ================================================================== *)
(** ** Python strings *)
(* ================================================================== *)

(** A Python [str] is a sequence of Unicode code points. *)
Definition pystr := list N.

(** An ASCII literal of the source as a [pystr]. *)
Fixpoint lit (s : string) : pystr :=
  match s with
  | EmptyString => []
  | String c s' => N_of_ascii c :: lit s'
  end.

Fixpoint pystr_eqb (a b : pystr) : bool :=
  match a, b with
  | [], [] => true
  | x :: a', y :: b' => N.eqb x y && pystr_eqb a' b'
  | _, _ => false
  end.

(** [s.startswith(p)] *)
Fixpoint startswith (s p : pystr) {struct p} : bool :=
  match p, s with
  | [], _ => true
  | y :: p', x :: s' => N.eqb x y && startswith s' p'
  | _ :: _, [] => false
  end.

(** [s.endswith(p)] *)
Definition endswith (s p : pystr) : bool := startswith (rev s) (rev p).

(** [p in s] for two strings: [p] occurs in [s] as a substring. *)
Fixpoint is_substring (p s : pystr) : bool :=
  startswith s p ||
  match s with
  | [] => false
  | _ :: s' => is_substring p s'
  end.

(** [str.isspace] on one code point: the code points CPython's
    [_PyUnicode_IsWhitespace] accepts, which are the ones [str.strip()]
    removes when called without an argument. *)
Definition is_whitespace (c : N) : bool :=
  ((9 <=? c) && (c <=? 13) ||
   (28 <=? c) && (c <=? 32) ||
   (c =? 133) || (c =? 160) || (c =? 5760) ||
   (8192 <=? c) && (c <=? 8202) ||
   (c =? 8232) || (c =? 8233) || (c =? 8239) || (c =? 8287) ||
   (c =? 12288))%N.

Fixpoint lstrip (s : pystr) : pystr :=
  match s with
  | [] => []
  | c :: s' => if is_whitespace c then lstrip s' else s
  end.

Definition rstrip (s : pystr) : pystr := rev (lstrip (rev s)).

(** [s.strip()] *)
Definition strip (s : pystr) : pystr := rstrip (lstrip s).

(** [sep.join(parts)] *)
Fixpoint join (sep : pystr) (parts : list pystr) : pystr :=
  match parts with
  | [] => []
  | [p] => p
  | p :: rest => p ++ sep ++ join sep rest
  end.

(** [str(z)] for an [int]. *)
Definition int_str (z : Z) : pystr := lit (NilZero.string_of_int (Z.to_int z)).

(* ================================================================== *)
(** ** Python values *)
(* ================================================================== *)

(** The values the inference library hands back and the script builds:
    [None], [bool], [int], [float], [str], [list] and [dict] with string
    keys.  A [dict] keeps its insertion order, which [json.dumps] follows,
    so it is an association list; lookups take the first binding of a key. *)
#[warnings="-register-all"]
Inductive pyval : Type :=
| PNone
| PBool (b : bool)
| PInt (z : Z)
| PFloat (f : spec_float)
| PStr (s : pystr)
| PList (l : list pyval)
| PDict (d : list (pystr * pyval)).

Inductive pytype := TNone | TBool | TInt | TFloat | TStr | TList | TDict.

Definition type_of (v : pyval) : pytype :=
  match v with
  | PNone => TNone
  | PBool _ => TBool
  | PInt _ => TInt
  | PFloat _ => TFloat
  | PStr _ => TStr
  | PList _ => TList
  | PDict _ => TDict
  end.

(** [int] and [float] (and [bool], a subclass of [int]) are the numeric
    types. *)
Definition is_number (v : pyval) : bool :=
  match v with
  | PInt _ | PFloat _ | PBool _ => true
  | _ => false
  end.

Definition is_str (v : pyval) : bool :=
  match v with
  | PStr _ => true
  | _ => false
  end.

Fixpoint dict_lookup (k : pystr) (d : list (pystr * pyval)) : option pyval :=
  match d with
  | [] => None
  | (k', v) :: d' => if pystr_eqb k k' then Some v else dict_lookup k d'
  end.

Definition dict_keys (d : list (pystr * pyval)) : list pystr := map fst d.

(* ================================================================== *)
(** ** Exceptions *)
(* ================================================================== *)

(** What the interpreter itself raises on the operations the script
    performs on a model result. *)
Inductive fault :=
| MissingKey (key : pystr)                  (* KeyError *)
| NotSubscriptable (t : pytype)             (* TypeError *)
| BadIndex (t : pytype)                     (* TypeError: str index into list or str *)
| NotIterable (t : pytype)                  (* TypeError *)
| NotContainer (t : pytype)                 (* TypeError: [x in v] *)
| NoAttribute (t : pytype) (attr : pystr).  (* AttributeError *)

(** Instances of [Exception].  [ImportError] stands for the class and its
    subclasses ([ModuleNotFoundError]); [UnicodeEncodeError] is what
    [print] raises when standard output cannot encode the text;
    [OtherException] stands for any class that is none of the others
    ([OSError], [RuntimeError], ...).  The carried string is [str(e)]. *)
Inductive exn :=
| ImportError (msg : pystr)
| FileNotFoundError (msg : pystr)
| UnicodeEncodeError (msg : pystr)
| OtherException (msg : pystr)
| Fault (f : fault).

(** [isinstance(e, ImportError)] *)
Definition is_ImportError (e : exn) : bool :=
  match e with
  | ImportError _ => true
  | _ => false
  end.

(** [isinstance(e, Exception)] *)
Definition is_Exception (e : exn) : bool := true.

(** A computation without effects that may raise. *)
Inductive res (A : Type) : Type :=
| Ok (a : A)
| Err (e : exn).
Arguments Ok {A} a.
Arguments Err {A} e.

Definition res_bind {A B} (r : res A) (k : A -> res B) : res B :=
  match r with
  | Ok a => k a
  | Err e => Err e
  end.

Declare Scope res_scope.
Delimit Scope res_scope with res.
Notation "'let?' x ':=' r 'in' k" := (res_bind r (fun x => k))
  (at level 10, x name, r at level 100, k at level 200) : res_scope.

(** A [for] loop that appends one item per element: the items in order,
    or the first exception. *)
Fixpoint res_map {A B} (f : A -> res B) (l : list A) : res (list B) :=
  match l with
  | [] => Ok []
  | x :: l' =>
      match f x with
      | Err e => Err e
      | Ok y =>
          match res_map f l' with
          | Err e => Err e
          | Ok ys => Ok (y :: ys)
          end
      end
  end.

(* ================================================================== *)
(** ** The operations of the interpreter the script uses *)
(* ================================================================== *)

(** [v[k]] with a string key. *)
Definition py_getitem (v : pyval) (k : pystr) : res pyval :=
  match v with
  | PDict d =>
      match dict_lookup k d with
      | Some x => Ok x
      | None => Err (Fault (MissingKey k))
      end
  | PList _ => Err (Fault (BadIndex TList))
  | PStr _ => Err (Fault (BadIndex TStr))
  | _ => Err (Fault (NotSubscriptable (type_of v)))
  end.

(** [v.get(k, default)] *)
Definition py_get (v : pyval) (k : pystr) (default : pyval) : res pyval :=
  match v with
  | PDict d =>
      match dict_lookup k d with
      | Some x => Ok x
      | None => Ok default
      end
  | _ => Err (Fault (NoAttribute (type_of v) (lit "get")))
  end.

(** [v.strip()] *)
Definition py_strip (v : pyval) : res pyval :=
  match v with
  | PStr s => Ok (PStr (strip s))
  | _ => Err (Fault (NoAttribute (type_of v) (lit "strip")))
  end.

(** [x == k] for a string [k]. *)
Definition equals_str (k : pystr) (x : pyval) : bool :=
  match x with
  | PStr s => pystr_eqb s k
  | _ => false
  end.

(** [k in v] with a string [k]: key membership in a [dict], element
    equality in a [list], substring in a [str]. *)
Definition py_contains (v : pyval) (k : pystr) : res bool :=
  match v with
  | PDict d => Ok (existsb (pystr_eqb k) (dict_keys d))
  | PList l => Ok (existsb (equals_str k) l)
  | PStr s => Ok (is_substring k s)
  | _ => Err (Fault (NotContainer (type_of v)))
  end.

(** The elements [for x in v] visits: the items of a [list], the keys of a
    [dict], the characters of a [str]. *)
Definition py_iter (v : pyval) : res (list pyval) :=
  match v with
  | PList l => Ok l
  | PDict d => Ok (map PStr (dict_keys d))
  | PStr s => Ok (map (fun c => PStr [c]) s)
  | _ => Err (Fault (NotIterable (type_of v)))
  end.

(* ================================================================== *)
(** ** The world outside the script *)
(* ================================================================== *)

(** Everything the script asks of its surroundings: the file system, the
    process environment, the import system, the inference library and the
    interpreter's own formatting of floats, containers and built-in error
    messages.  None of it is code of the script, so it is a parameter. *)
Record World := {
  (** [os.path.dirname(os.path.abspath(__file__))] *)
  script_dir : pystr;
  (** [os.listdir(p)]: the entries, or the exception it raises *)
  listdir : pystr -> res (list pystr);
  (** [os.path.exists(p)] *)
  path_exists : pystr -> bool;
  (** [import m], given the directories [site.addsitedir] has registered:
      [None] when the import succeeds, the exception otherwise *)
  import_module : pystr -> list pystr -> option exn;
  (** [os.environ]: the value of a variable, [None] when it is unset *)
  environ : pystr -> option pystr;
  (** [torch.cuda.is_available()] *)
  cuda_is_available : res bool;
  (** [whisper.load_model(name, device=device)]: [None] when a model is
      returned, the exception otherwise *)
  load_model : pystr -> pystr -> option exn;
  (** [model.transcribe(audio_path, language=..., word_timestamps=...,
      verbose=..., fp16=...)] on the model loaded under [name] on
      [device] *)
  model_transcribe :
    pystr -> pystr -> pystr -> pystr -> bool -> bool -> bool -> res pyval;
  (** [repr(v)] for a finite [float], a [list] or a [dict] *)
  py_repr : pyval -> pystr;
  (** [str(e)] for an exception the interpreter raised *)
  fault_text : fault -> pystr;
  (** whether the encoding of [sys.stdout] can encode a code point outside
      ASCII (every encoding encodes ASCII itself) *)
  stdout_encodes : N -> bool;
  (** [str(e)] of the [UnicodeEncodeError] that writing a text to
      [sys.stdout] raises; the interpreter words it in ASCII, the
      offending character escaped *)
  encode_error_text : pystr -> string;
  (** the traceback the interpreter writes to standard error for an
      exception nobody caught, given the exception that was being handled
      when it was raised, if any *)
  traceback_text : option exn -> exn -> pystr
}.

(** Whether [print] can write [s] to standard output: every code point
    outside ASCII must be one the encoding of [sys.stdout] has. *)
Definition stdout_accepts (W : World) (s : pystr) : bool :=
  forallb (fun c => (c <? 128)%N || stdout_encodes W c) s.

(** Calls that leave the script, in the order they are made. *)
Inductive call :=
| CListdir (p : pystr)
| CPathExists (p : pystr)
| CAddSiteDir (p : pystr)
| CImport (module : pystr)
| CEnvironGet (key default : pystr)
| CCudaIsAvailable
| CLoadModel (name device : pystr)
| CTranscribe (audio_path language : pystr)
              (word_timestamps verbose fp16 : bool)
| CStdoutFlush.

(** The state of the process.  [stdout] and [stderr] hold what was
    written to the two streams, oldest first: one entry per [print] call
    (the text without its line end) and, on [stderr], the traceback the
    interpreter writes when an exception is left uncaught.  [handling]
    is the exception whose [except] clause is running, if any. *)
Record State := {
  stdout : list pystr;
  stderr : list pystr;
  site_dirs : list pystr;
  calls : list call;
  handling : option exn
}.

Definition initial_state : State :=
  {| stdout := []; stderr := []; site_dirs := []; calls := [];
     handling := None |}.

(* ================================================================== *)
(** ** Effects: state, exceptions and [SystemExit] *)
(* ================================================================== *)

Inductive outcome (A : Type) : Type :=
| Return (a : A)
| Raise (e : exn)
| SysExit (code : Z).
Arguments Return {A} a.
Arguments Raise {A} e.
Arguments SysExit {A} code.

Definition M (A : Type) : Type := State -> outcome A * State.

Definition ret {A} (a : A) : M A := fun st => (Return a, st).

Definition bind {A B} (m : M A) (k : A -> M B) : M B :=
  fun st =>
    match m st with
    | (Return a, st') => k a st'
    | (Raise e, st') => (Raise e, st')
    | (SysExit c, st') => (SysExit c, st')
    end.

Declare Scope py_scope.
Delimit Scope py_scope with py.
Notation "x <- m ;; k" := (bind m (fun x => k))
  (at level 61, m at next level, right associativity) : py_scope.
Notation "m ;; k" := (bind m (fun _ => k))
  (at level 61, right associativity) : py_scope.

(** [raise e] *)
Definition raise {A} (e : exn) : M A := fun st => (Raise e, st).

(** [sys.exit(code)]: raises [SystemExit], which is not an [Exception]. *)
Definition sys_exit {A} (code : Z) : M A := fun st => (SysExit code, st).

(** A pure computation that may raise, run inside the script. *)
Definition lift {A} (r : res A) : M A :=
  match r with
  | Ok a => ret a
  | Err e => raise e
  end.

(** [st] once the [except] clause for [e] has been entered. *)
Definition enter_handler (e : exn) (st : State) : State :=
  {| stdout := stdout st; stderr := stderr st; site_dirs := site_dirs st;
     calls := calls st; handling := Some e |}.

(** [st] once an [except] clause entered from a state that was handling
    [h] has been left. *)
Definition leave_handler (h : option exn) (st : State) : State :=
  {| stdout := stdout st; stderr := stderr st; site_dirs := site_dirs st;
     calls := calls st; handling := h |}.

(** [try: body / except <class> as e: handler(e)].  An exception outside
    the class, and [SystemExit], pass through; an exception raised by the
    handler leaves the clause with [e] still recorded as the one that was
    being handled. *)
Definition try_except {A} (body : M A) (catches : exn -> bool)
           (handler : exn -> M A) : M A :=
  fun st =>
    match body st with
    | (Raise e, st') =>
        if catches e then
          match handler e (enter_handler e st') with
          | (Return a, st'') => (Return a, leave_handler (handling st') st'')
          | other => other
          end
        else (Raise e, st')
    | other => other
    end.

Definition log (c : call) : M unit :=
  fun st => (Return tt,
             {| stdout := stdout st; stderr := stderr st;
                site_dirs := site_dirs st; calls := calls st ++ [c];
                handling := handling st |}).

(** [print(s, file=sys.stderr)]: [sys.stderr] replaces what it cannot
    encode, so the call always writes. *)
Definition print_stderr (s : pystr) : M unit :=
  fun st => (Return tt,
             {| stdout := stdout st; stderr := stderr st ++ [s];
                site_dirs := site_dirs st; calls := calls st;
                handling := handling st |}).

(** [os.path.join(a, *ps)] on a POSIX system. *)
Definition path_join2 (path b : pystr) : pystr :=
  if startswith b (lit "/") then b
  else match path with
       | [] => b
       | _ => if endswith path (lit "/") then path ++ b
              else path ++ lit "/" ++ b
       end.

Definition os_path_join (a : pystr) (ps : list pystr) : pystr :=
  fold_left path_join2 ps a.

(* ================================================================== *)
(** ** The script *)
(* ================================================================== *)

Module Whisper.

Local Open Scope py_scope.

(** *** [json.dumps(v, ensure_ascii=False)] *)

Definition hex_digit (n : N) : N :=
  (if n <? 10 then 48 + n else 87 + n)%N.

(** One character inside a JSON string, as [json.encoder] writes it when
    [ensure_ascii] is false: the quote, the backslash and the control
    characters below U+0020 are escaped, every other code point is
    written as it is. *)
Definition escape_char (c : N) : pystr :=
  (if c =? 34 then [92; 34]
   else if c =? 92 then [92; 92]
   else if c =? 10 then lit "\n"
   else if c =? 13 then lit "\r"
   else if c =? 9 then lit "\t"
   else if c =? 8 then lit "\b"
   else if c =? 12 then lit "\f"
   else if c <? 32 then lit "\u00" ++ [hex_digit (c / 16); hex_digit (c mod 16)]
   else [c])%N.

Definition encode_basestring (s : pystr) : pystr :=
  [34%N] ++ flat_map escape_char s ++ [34%N].

Section WithWorld.

Variable W : World.

(** [str(v)] *)
Definition py_str (v : pyval) : pystr :=
  match v with
  | PStr s => s
  | PInt z => int_str z
  | PBool true => lit "True"
  | PBool false => lit "False"
  | PNone => lit "None"
  | PFloat S754_nan => lit "nan"
  | PFloat (S754_infinity false) => lit "inf"
  | PFloat (S754_infinity true) => lit "-inf"
  | _ => py_repr W v
  end.

(** [str(e)] *)
Definition exn_str (e : exn) : pystr :=
  match e with
  | ImportError msg | FileNotFoundError msg | UnicodeEncodeError msg
  | OtherException msg => msg
  | Fault f => fault_text W f
  end.

(** A [float] in JSON: [float.__repr__], except for the three values
    [json.encoder] names itself. *)
Definition json_float (f : spec_float) : pystr :=
  match f with
  | S754_nan => lit "NaN"
  | S754_infinity false => lit "Infinity"
  | S754_infinity true => lit "-Infinity"
  | _ => py_repr W (PFloat f)
  end.

Fixpoint json_dumps (v : pyval) : pystr :=
  match v with
  | PNone => lit "null"
  | PBool true => lit "true"
  | PBool false => lit "false"
  | PInt z => int_str z
  | PFloat f => json_float f
  | PStr s => encode_basestring s
  | PList l => lit "[" ++ join (lit ", ") (map json_dumps l) ++ lit "]"
  | PDict d =>
      lit "{" ++
      join (lit ", ")
           (map (fun kv => match kv with
                           | (k, x) => encode_basestring k ++ lit ": " ++ json_dumps x
                           end) d) ++
      lit "}"
  end.

(** *** Primitive effects *)

(** [print(s)]: the text is written when [sys.stdout] can encode it;
    otherwise nothing is written and [UnicodeEncodeError] is raised. *)
Definition print (s : pystr) : M unit :=
  fun st =>
    if stdout_accepts W s then
      (Return tt,
       {| stdout := stdout st ++ [s]; stderr := stderr st;
          site_dirs := site_dirs st; calls := calls st;
          handling := handling st |})
    else (Raise (UnicodeEncodeError (lit (encode_error_text W s))), st).

Definition os_listdir (p : pystr) : M (list pystr) :=
  log (CListdir p) ;; lift (listdir W p).

Definition os_path_exists (p : pystr) : M bool :=
  log (CPathExists p) ;; ret (path_exists W p).

(** [site.addsitedir(p)] *)
Definition site_addsitedir (p : pystr) : M unit :=
  log (CAddSiteDir p) ;;
  fun st => (Return tt,
             {| stdout := stdout st; stderr := stderr st;
                site_dirs := site_dirs st ++ [p]; calls := calls st;
                handling := handling st |}).

(** [import m] *)
Definition import (m : pystr) : M unit :=
  log (CImport m) ;;
  fun st => match import_module W m (site_dirs st) with
            | None => (Return tt, st)
            | Some e => (Raise e, st)
            end.

(** [os.environ.get(key, default)] *)
Definition os_environ_get (key default : pystr) : M pystr :=
  log (CEnvironGet key default) ;;
  ret (match environ W key with
       | Some v => v
       | None => default
       end).

Definition torch_cuda_is_available : M bool :=
  log CCudaIsAvailable ;; lift (cuda_is_available W).

Definition whisper_load_model (name device : pystr) : M unit :=
  log (CLoadModel name device) ;;
  match load_model W name device with
  | None => ret tt
  | Some e => raise e
  end.

Definition transcribe_call (name device audio_path language : pystr)
           (word_timestamps verbose fp16 : bool) : M pyval :=
  log (CTranscribe audio_path language word_timestamps verbose fp16) ;;
  lift (model_transcribe W name device audio_path language
                         word_timestamps verbose fp16).

Definition sys_stdout_flush : M unit := log CStdoutFlush.

(** *** [setup_environment] *)

(** The body of the [for py_ver in os.listdir(...)] loop, over the
    entries still to visit; registering a directory ends the loop
    ([break]). *)
Fixpoint setup_loop (entries : list pystr) : M unit :=
  match entries with
  | [] => ret tt
  | py_ver :: rest =>
      if startswith py_ver (lit "python3") then
        let venv_site_packages :=
          os_path_join (script_dir W)
                       [lit "venv"; lit "lib"; py_ver; lit "site-packages"] in
        found <- os_path_exists venv_site_packages ;;
        if found then
          site_addsitedir venv_site_packages ;;
          print_stderr (lit "Added " ++ venv_site_packages ++
                        lit " to Python path")
        else setup_loop rest
      else setup_loop rest
  end.

Definition setup_environment : M unit :=
  entries <- os_listdir (os_path_join (script_dir W) [lit "venv"; lit "lib"]) ;;
  setup_loop entries.

(** *** Reshaping the model result (the two nested loops) *)

Local Open Scope res_scope.

(** One pass of the inner loop: the [dict] appended for [word]. *)
Definition reshape_word (word : pyval) : res pyval :=
  let? t := py_get word (lit "text") (PStr []) in
  let? text := py_strip t in
  let? s := py_get word (lit "start") (PInt 0) in
  let? e := py_get word (lit "end") (PInt 0) in
  Ok (PDict [(lit "text", text);
             (lit "start", PStr (py_str s));
             (lit "end", PStr (py_str e))]).

(** [words] after the [if "words" in segment:] block. *)
Definition reshape_words (segment : pyval) : res (list pyval) :=
  let? has_words := py_contains segment (lit "words") in
  if has_words then
    let? ws := py_getitem segment (lit "words") in
    let? items := py_iter ws in
    res_map reshape_word items
  else Ok [].

(** One pass of the outer loop: the [dict] appended for [segment]. *)
Definition reshape_segment (segment : pyval) : res pyval :=
  let? words := reshape_words segment in
  let? t := py_get segment (lit "text") (PStr []) in
  let? text := py_strip t in
  let? s := py_get segment (lit "start") (PInt 0) in
  let? e := py_get segment (lit "end") (PInt 0) in
  Ok (PDict [(lit "text", text);
             (lit "start", s);
             (lit "end", e);
             (lit "words", PList words)]).

(** [output], built from [result]. *)
Definition reshape (result : pyval) : res pyval :=
  let? segs := py_getitem result (lit "segments") in
  let? items := py_iter segs in
  let? segments := res_map reshape_segment items in
  let? t := py_get result (lit "text") (PStr []) in
  let? text := py_strip t in
  Ok (PDict [(lit "text", text); (lit "segments", PList segments)]).

Local Close Scope res_scope.

(** *** [transcribe_audio] *)

(** The payload every handler prints. *)
Definition error_payload (message : pystr) : pyval :=
  PDict [(lit "error", PStr message);
         (lit "text", PStr []);
         (lit "segments", PList [])].

(** The body of the first [try]. *)
Definition load_dependencies : M unit :=
  setup_environment ;;
  import (lit "whisper") ;;
  import (lit "torch").

(** [cpu_only], from the value [os.environ.get] returned. *)
Definition cpu_only (flag : pystr) : bool := pystr_eqb flag (lit "1").

(** The device, as the [if cpu_only: ... else: ...] block assigns it. *)
Definition select_device : M pystr :=
  flag <- os_environ_get (lit "WHISPER_CPU_ONLY") (lit "0") ;;
  if cpu_only flag then ret (lit "cpu")
  else
    available <- torch_cuda_is_available ;;
    ret (if available then lit "cuda" else lit "cpu").

(** The body of the second [try]. *)
Definition transcribe_body (audio_path language : pystr) : M unit :=
  found <- os_path_exists audio_path ;;
  (if negb found
   then raise (FileNotFoundError (lit "Audio file not found: " ++ audio_path))
   else ret tt) ;;
  device <- select_device ;;
  print_stderr (lit "Using device: " ++ device) ;;
  whisper_load_model (lit "small") device ;;
  result <- transcribe_call (lit "small") device audio_path language
                            true false false ;;
  output <- lift (reshape result) ;;
  print (json_dumps output) ;;
  sys_stdout_flush.

Definition transcribe_audio (audio_path language : pystr) : M unit :=
  try_except load_dependencies is_ImportError
    (fun e =>
       print (json_dumps
                (error_payload
                   (lit "Failed to import required modules: " ++ exn_str e))) ;;
       sys_exit 1) ;;
  try_except (transcribe_body audio_path language) is_Exception
    (fun e =>
       print (json_dumps (error_payload (exn_str e))) ;;
       sys_exit 1).

(** *** The [__main__] block *)

(** [sys.argv[2] if len(sys.argv) > 2 else "vi"], from what follows
    [sys.argv[1]]. *)
Definition language_argument (rest : list pystr) : pystr :=
  match rest with
  | [] => lit "vi"
  | l :: _ => l
  end.

Definition main (argv : list pystr) : M unit :=
  match argv with
  | [] | [_] =>
      print (json_dumps (error_payload (lit "No audio file provided"))) ;;
      sys_exit 1
  | _ :: audio_path :: rest =>
      transcribe_audio audio_path (language_argument rest)
  end.

End WithWorld.

(** How the process ends: with an exit status, or on an exception nobody
    caught (the interpreter then writes a traceback to standard error). *)
Inductive status :=
| Exited (code : Z)
| Uncaught (e : exn).

Record Final := {
  final_status : status;
  final_state : State
}.

(** One run of the script as a program, on the command line [argv]
    ([argv] includes the script's own name, as [sys.argv] does). *)
Definition run (W : World) (argv : list pystr) : Final :=
  match main W argv initial_state with
  | (Return _, st) => {| final_status := Exited 0; final_state := st |}
  | (SysExit c, st) => {| final_status := Exited c; final_state := st |}
  | (Raise e, st) =>
      {| final_status := Uncaught e;
         final_state :=
           {| stdout := stdout st;
              stderr := stderr st ++ [traceback_text W (handling st) e];
              site_dirs := site_dirs st; calls := calls st;
              handling := handling st |} |}
  end.

End Whisper.

Import Whisper.

(* ================================================================== *)
(** ** Vocabulary of the specification *)
(* ================================================================== *)

(** [v[k]] when [v] is a [dict] that has the key. *)
Definition field (v : pyval) (k : string) : option pyval :=
  match v with
  | PDict d => dict_lookup (lit k) d
  | _ => None
  end.

(** The keys of a record, in order. *)
Definition keys_of (v : pyval) : list pystr :=
  match v with
  | PDict d => dict_keys d
  | _ => []
  end.

(** The segments the outer loop visits. *)
Definition input_segments (result : pyval) : res (list pyval) :=
  res_bind (py_getitem result (lit "segments")) py_iter.

(** The words the inner loop visits: none when the segment has no
    [words] entry. *)
Definition input_words (segment : pyval) : res (list pyval) :=
  res_bind (py_contains segment (lit "words"))
           (fun has_words =>
              if has_words
              then res_bind (py_getitem segment (lit "words")) py_iter
              else Ok []).

(** A string with no white space at either end. *)
Definition trimmed (s : pystr) : Prop :=
  (forall c s', s = c :: s' -> is_whitespace c = false) /\
  (forall c s', s = s' ++ [c] -> is_whitespace c = false).

(** [t] is [s] with white space, and nothing else, taken off both ends. *)
Definition trim_of (s t : pystr) : Prop :=
  trimmed t /\
  exists l r, s = l ++ t ++ r /\
              Forall (fun c => is_whitespace c = true) l /\
              Forall (fun c => is_whitespace c = true) r.

(** The first try block ran to its end from a fresh process, leaving the
    state [st]. *)
Definition dependencies_loaded (W : World) (st : State) : Prop :=
  load_dependencies W initial_state = (Return tt, st).

(** The flag that forces the CPU, as the script reads it. *)
Definition cpu_forced (W : World) : bool :=
  cpu_only (match environ W (lit "WHISPER_CPU_ONLY") with
            | Some v => v
            | None => lit "0"
            end).

(** [wout] is the record the inner loop appends for the word [win]. *)
Definition word_reshaped (W : World) (win wout : pyval) : Prop :=
  exists t s e,
    py_get win (lit "text") (PStr []) = Ok (PStr t) /\
    py_get win (lit "start") (PInt 0) = Ok s /\
    py_get win (lit "end") (PInt 0) = Ok e /\
    wout = PDict [(lit "text", PStr (strip t));
                  (lit "start", PStr (py_str W s));
                  (lit "end", PStr (py_str W e))].

(** [sout] is the record the outer loop appends for the segment [sin]. *)
Definition segment_reshaped (W : World) (sin sout : pyval) : Prop :=
  exists ws_in ws_out t s e,
    input_words sin = Ok ws_in /\
    Forall2 (word_reshaped W) ws_in ws_out /\
    py_get sin (lit "text") (PStr []) = Ok (PStr t) /\
    py_get sin (lit "start") (PInt 0) = Ok s /\
    py_get sin (lit "end") (PInt 0) = Ok e /\
    sout = PDict [(lit "text", PStr (strip t));
                  (lit "start", s);
                  (lit "end", e);
                  (lit "words", PList ws_out)].

(** [out] is the output built from the model result [result]. *)
Definition result_reshaped (W : World) (result out : pyval) : Prop :=
  exists segs_in segs_out t,
    input_segments result = Ok segs_in /\
    Forall2 (segment_reshaped W) segs_in segs_out /\
    py_get result (lit "text") (PStr []) = Ok (PStr t) /\
    out = PDict [(lit "text", PStr (strip t));
                 (lit "segments", PList segs_out)].

(** The start and end of a record are both numbers. *)
Definition numeric_times (v : pyval) : Prop :=
  exists s e, field v "start" = Some s /\ field v "end" = Some e /\
              is_number s = true /\ is_number e = true.

(** The start and end of a record are both strings. *)
Definition string_times (v : pyval) : Prop :=
  exists s e, field v "start" = Some (PStr s) /\ field v "end" = Some (PStr e).

(** The text of a record is a string with no white space at its ends. *)
Definition text_trimmed (v : pyval) : Prop :=
  exists t, field v "text" = Some (PStr t) /\ trimmed t.

(** How device selection ends: the device, or the exception
    [torch.cuda.is_available()] raised. *)
Definition device_outcome (W : World) : outcome pystr :=
  fst (select_device W initial_state).

(** The state [st] after the further calls [extra]. *)
Definition after_calls (st : State) (extra : list call) : State :=
  {| stdout := stdout st; stderr := stderr st;
     site_dirs := site_dirs st; calls := calls st ++ extra;
     handling := handling st |}.

(** [s] between double quotes. *)
Definition quoted (s : pystr) : pystr := [34%N] ++ s ++ [34%N].

(** The line of an error payload: the JSON object with [error], an empty
    [text] and an empty [segments], in that order. *)
Definition error_line (message : pystr) : pystr :=
  lit "{" ++ quoted (lit "error") ++ lit ": " ++ encode_basestring message ++
  lit ", " ++ quoted (lit "text") ++ lit ": " ++ quoted [] ++
  lit ", " ++ quoted (lit "segments") ++ lit ": []}".

(** The run ended with status 1 after printing, as its only output, the
    error payload with the message [message]. *)
Definition reports_error (W : World) (final : Final) (message : pystr) : Prop :=
  final_status final = Exited 1 /\
  stdout (final_state final) = [json_dumps W (error_payload message)].

(** The run reported an error whose message mentions [path]. *)
Definition reports_error_mentioning (W : World) (final : Final)
           (path : pystr) : Prop :=
  exists message,
    reports_error W final message /\ is_substring path message = true.

(** A character [json.dumps] writes as it is. *)
Definition is_plain (c : N) : bool :=
  (negb (c =? 34) && negb (c =? 92) && (32 <=? c))%N.

(** The code points of [s] outside ASCII, in order. *)
Definition non_ascii (s : pystr) : pystr := filter (fun c => (128 <=? c)%N) s.

(** A model result of the shape the data model describes: a [dict] whose
    [segments] is a list of [dict]s, each with an optional list [words]
    of [dict]s, every [text] that is present being a string. *)
Definition text_ok (d : list (pystr * pyval)) : bool :=
  match dict_lookup (lit "text") d with
  | None => true
  | Some v => is_str v
  end.

Definition word_ok (w : pyval) : bool :=
  match w with
  | PDict d => text_ok d
  | _ => false
  end.

Definition segment_ok (s : pyval) : bool :=
  match s with
  | PDict d =>
      text_ok d &&
      match dict_lookup (lit "words") d with
      | None => true
      | Some (PList ws) => forallb word_ok ws
      | Some _ => false
      end
  | _ => false
  end.

Definition result_ok (r : pyval) : bool :=
  match r with
  | PDict d =>
      text_ok d &&
      match dict_lookup (lit "segments") d with
      | Some (PList segs) => forallb segment_ok segs
      | _ => false
      end
  | _ => false
  end.

(** *** The JSON text of the output *)

(** [s] is ASCII throughout. *)
Definition is_ascii (s : pystr) : bool := forallb (fun c => (c <? 128)%N) s.
















(** Calls the first try block makes. *)
Definition is_setup_call (c : call) : bool :=
  match c with
  | CListdir _ | CPathExists _ | CAddSiteDir _ | CImport _ => true
  | _ => false
  end.

(** The device the specification asks for: the CPU when the flag forces
    it, otherwise the GPU exactly when the runtime reports one. *)
Definition specified_device (forced gpu_available : bool) : pystr :=
  if forced then lit "cpu"
  else if gpu_available then lit "cuda" else lit "cpu".

(** The two calls every transcription is to make. *)
Definition loads_small (c : call) : Prop :=
  match c with
  | CLoadModel name _ => name = lit "small"
  | _ => True
  end.

Definition transcribes_with_fixed_options (c : call) : Prop :=
  match c with
  | CTranscribe _ _ word_timestamps verbose fp16 =>
      word_timestamps = true /\ verbose = false /\ fp16 = false
  | _ => True
  end.

(** A model is only ever asked for on the device that was selected. *)
Definition loads_on_selected_device (W : World) (c : call) : Prop :=
  match c with
  | CLoadModel _ device => device_outcome W = Return device
  | _ => True
  end.

(** What holds of every call a run makes. *)
Definition call_ok (W : World) (c : call) : Prop :=
  loads_small c /\ transcribes_with_fixed_options c /\
  loads_on_selected_device W c.

(** *** Environment set-up and imports *)

(** [os.path.join(script_dir, "venv", "lib")] *)
Definition venv_lib (W : World) : pystr :=
  os_path_join (script_dir W) [lit "venv"; lit "lib"].

(** [os.path.join(script_dir, "venv", "lib", py_ver, "site-packages")] *)
Definition site_packages_of (W : World) (py_ver : pystr) : pystr :=
  os_path_join (script_dir W)
               [lit "venv"; lit "lib"; py_ver; lit "site-packages"].

Definition is_python3 (py_ver : pystr) : bool :=
  startswith py_ver (lit "python3").

(** An entry of [venv/lib] the loop would register: its name starts with
    "python3" and its [site-packages] exists. *)
Definition registers (W : World) (py_ver : pystr) : bool :=
  is_python3 py_ver && path_exists W (site_packages_of W py_ver).

(** The directories a listing gets registered: the [site-packages] of the
    first entry that qualifies, if any. *)
Definition registered (W : World) (entries : list pystr) : list pystr :=
  match find (registers W) entries with
  | Some py_ver => [site_packages_of W py_ver]
  | None => []
  end.

(** The diagnostic line of a registration. *)
Definition added_line (p : pystr) : pystr :=
  lit "Added " ++ p ++ lit " to Python path".

(** The paths whose existence a listing makes the loop ask for. *)
Fixpoint probed (W : World) (entries : list pystr) : list pystr :=
  match entries with
  | [] => []
  | py_ver :: rest =>
      if is_python3 py_ver
      then site_packages_of W py_ver ::
           (if path_exists W (site_packages_of W py_ver)
            then [] else probed W rest)
      else probed W rest
  end.

(** The state [st] after [setup_environment] has gone through the
    listing [entries]. *)
Definition state_after_setup (W : World) (entries : list pystr)
           (st : State) : State :=
  {| stdout := stdout st;
     stderr := stderr st ++ map added_line (registered W entries);
     site_dirs := site_dirs st ++ registered W entries;
     calls := calls st ++ [CListdir (venv_lib W)] ++
              map CPathExists (probed W entries) ++
              map CAddSiteDir (registered W entries);
     handling := handling st |}.

(** The exception of the first of the two imports that fails, with the
    directories [dirs] registered. *)
Definition import_failure (W : World) (dirs : list pystr) : option exn :=
  match import_module W (lit "whisper") dirs with
  | Some e => Some e
  | None => import_module W (lit "torch") dirs
  end.

(** The [UnicodeEncodeError] [print] raises on the text [s]. *)
Definition encode_error (W : World) (s : pystr) : exn :=
  UnicodeEncodeError (lit (encode_error_text W s)).

(** The last step of the second try block: the output, once printed, or
    the exception of [print]. *)
Definition print_output (W : World) (output : pyval) : res pyval :=
  if stdout_accepts W (json_dumps W output) then Ok output
  else Err (encode_error W (json_dumps W output)).

(** *** The calls of the second try block *)

(** The calls device selection makes. *)
Definition device_calls (W : World) : list call :=
  CEnvironGet (lit "WHISPER_CPU_ONLY") (lit "0") ::
  (if cpu_forced W then [] else [CCudaIsAvailable]).

(** The calls the second try block makes, read off the world. *)
Definition body_calls (W : World) (audio language : pystr) : list call :=
  CPathExists audio ::
  (if path_exists W audio then
     device_calls W ++
     match device_outcome W with
     | Return device =>
         CLoadModel (lit "small") device ::
         match load_model W (lit "small") device with
         | Some _ => []
         | None =>
             CTranscribe audio language true false false ::
             match model_transcribe W (lit "small") device audio language
                                    true false false with
             | Ok result =>
                 match res_bind (reshape W result) (print_output W) with
                 | Ok _ => [CStdoutFlush]
                 | Err _ => []
                 end
             | Err _ => []
             end
         end
     | _ => []
     end
   else []).

(** The device selected, or the exception raised on the way, read off
    the world. *)
Definition device_result (W : World) : res pystr :=
  if cpu_forced W then Ok (lit "cpu")
  else match cuda_is_available W with
       | Ok available => Ok (if available then lit "cuda" else lit "cpu")
       | Err e => Err e
       end.

(** What the second try block ends with, read off the world: the output
    it has printed, or the exception of the first step that fails, the
    steps being the path check, the device, the model, the
    transcription, the reshaping and the printing, in this order. *)
Definition body_result (W : World) (audio language : pystr) : res pyval :=
  if path_exists W audio then
    res_bind (device_result W)
      (fun device =>
         match load_model W (lit "small") device with
         | Some e => Err e
         | None =>
             res_bind (model_transcribe W (lit "small") device audio language
                                        true false false)
                      (fun result => res_bind (reshape W result)
                                              (print_output W))
         end)
  else Err (FileNotFoundError (lit "Audio file not found: " ++ audio)).

(** How a run ends once an [except] clause, entered for the exception
    [e0] in the state [st], sets out to report [message]: with status 1
    after printing the payload, or, when standard output cannot encode
    the payload, on the [UnicodeEncodeError] of that [print], which
    nobody catches. *)
Definition report_end (W : World) (e0 : exn) (message : pystr)
           (st : State) : Final :=
  let line := json_dumps W (error_payload message) in
  if stdout_accepts W line then
    {| final_status := Exited 1;
       final_state :=
         {| stdout := stdout st ++ [line]; stderr := stderr st;
            site_dirs := site_dirs st; calls := calls st;
            handling := Some e0 |} |}
  else
    {| final_status := Uncaught (encode_error W line);
       final_state :=
         {| stdout := stdout st;
            stderr := stderr st ++
                      [traceback_text W (Some e0) (encode_error W line)];
            site_dirs := site_dirs st; calls := calls st;
            handling := Some e0 |} |}.

(** How a run ends when the exception [e] leaves the script from the
    state [st]. *)
Definition uncaught_end (W : World) (e : exn) (st : State) : Final :=
  {| final_status := Uncaught e;
     final_state :=
       {| stdout := stdout st;
          stderr := stderr st ++ [traceback_text W (handling st) e];
          site_dirs := site_dirs st; calls := calls st;
          handling := handling st |} |}.

(** The run ended on the [UnicodeEncodeError] of the [print] of an error
    payload, with nothing on standard output. *)
Definition report_escapes (W : World) (final : Final) (message : pystr) : Prop :=
  final_status final =
  Uncaught (encode_error W (json_dumps W (error_payload message))) /\
  stdout (final_state final) = [].

(** The lines the second try block writes to standard error. *)
Definition body_diagnostics (W : World) (audio : pystr) : list pystr :=
  if path_exists W audio then
    match device_result W with
    | Ok device => [lit "Using device: " ++ device]
    | Err _ => []
    end
  else [].

Definition is_gpu_query (c : call) : bool :=
  match c with
  | CCudaIsAvailable => true
  | _ => false
  end.

Definition is_load_call (c : call) : bool :=
  match c with
  | CLoadModel _ _ => true
  | _ => false
  end.

Definition is_transcribe_call (c : call) : bool :=
  match c with
  | CTranscribe _ _ _ _ _ => true
  | _ => false
  end.

Definition is_dict (v : pyval) : bool :=
  match v with
  | PDict _ => true
  | _ => false
  end.

(* ================================================================== *)
(** ** Sample worlds and model results *)
(* ================================================================== *)

Module Samples.

(** 0.0, 0.5 and 1.5 as binary floats. *)
Definition f0_0 : spec_float := S754_zero false.
Definition f0_5 : spec_float := S754_finite false 1 (-1).
Definition f1_5 : spec_float := S754_finite false 3 (-1).

Definition repr (v : pyval) : pystr :=
  match v with
  | PFloat (S754_zero false) => lit "0.0"
  | PFloat (S754_finite false 1 (-1)) => lit "0.5"
  | PFloat (S754_finite false 3 (-1)) => lit "1.5"
  | _ => lit "<repr>"
  end.

Definition faults (f : fault) : pystr :=
  match f with
  | MissingKey k => [39%N] ++ k ++ [39%N]
  | NotSubscriptable _ => lit "object is not subscriptable"
  | BadIndex _ => lit "indices must be integers"
  | NotIterable _ => lit "object is not iterable"
  | NotContainer _ => lit "argument is not iterable"
  | NoAttribute _ attr => lit "object has no attribute " ++ attr
  end.

(** " xin chào " with white space at both ends. *)
Definition xin_chao : pystr := lit " xin ch" ++ [224%N] ++ lit "o ".

Definition word_xin : pyval :=
  PDict [(lit "text", PStr (lit " xin"));
         (lit "start", PFloat f0_0);
         (lit "end", PFloat f0_5);
         (lit "probability", PFloat f0_5)].

Definition word_chao : pyval :=
  PDict [(lit "text", PStr (lit " ch" ++ [224%N] ++ lit "o"));
         (lit "start", PFloat f0_5);
         (lit "end", PFloat f1_5)].

Definition segment_with_words : pyval :=
  PDict [(lit "id", PInt 0);
         (lit "seek", PInt 0);
         (lit "start", PFloat f0_0);
         (lit "end", PFloat f1_5);
         (lit "text", PStr xin_chao);
         (lit "words", PList [word_xin; word_chao])].

Definition segment_without_words : pyval :=
  PDict [(lit "id", PInt 1);
         (lit "start", PFloat f1_5);
         (lit "end", PInt 2);
         (lit "text", PStr (lit " bye"))].

Definition result : pyval :=
  PDict [(lit "text", PStr xin_chao);
         (lit "segments", PList [segment_with_words; segment_without_words]);
         (lit "language", PStr (lit "vi"))].

(** What the script is to make of [result]. *)
Definition output : pyval :=
  PDict
    [(lit "text", PStr (lit "xin ch" ++ [224%N] ++ lit "o"));
     (lit "segments",
      PList
        [PDict [(lit "text", PStr (lit "xin ch" ++ [224%N] ++ lit "o"));
                (lit "start", PFloat f0_0);
                (lit "end", PFloat f1_5);
                (lit "words",
                 PList
                   [PDict [(lit "text", PStr (lit "xin"));
                           (lit "start", PStr (lit "0.0"));
                           (lit "end", PStr (lit "0.5"))];
                    PDict [(lit "text", PStr (lit "ch" ++ [224%N] ++ lit "o"));
                           (lit "start", PStr (lit "0.5"));
                           (lit "end", PStr (lit "1.5"))]])];
         PDict [(lit "text", PStr (lit "bye"));
                (lit "start", PFloat f1_5);
                (lit "end", PInt 2);
                (lit "words", PList [])]])].

(** UTF-8 encodes every code point but the surrogates. *)
Definition utf8_encodes (c : N) : bool :=
  negb ((55296 <=? c) && (c <=? 57343))%N.

(** A world given by what each question to it answers, on a standard
    output in UTF-8. *)
Definition world (entries : res (list pystr)) (present : pystr -> bool)
           (imports : pystr -> option exn) (flag : option pystr)
           (cuda : res bool) (loaded : option exn)
           (transcript : res pyval) : World :=
  {| script_dir := lit "/app/src/services";
     listdir := fun _ => entries;
     path_exists := present;
     import_module := fun m _ => imports m;
     environ := fun k => if pystr_eqb k (lit "WHISPER_CPU_ONLY")
                         then flag else None;
     cuda_is_available := cuda;
     load_model := fun _ _ => loaded;
     model_transcribe := fun _ _ _ _ _ _ _ => transcript;
     py_repr := repr;
     fault_text := faults;
     stdout_encodes := utf8_encodes;
     encode_error_text := fun _ => "codec can't encode character"%string;
     traceback_text := fun _ _ => lit "Traceback (most recent call last)" |}.

(** An installation in working order, with a GPU. *)
Definition healthy : World :=
  world (Ok [lit "python3.11"]) (fun _ => true) (fun _ => None) None
        (Ok true) None (Ok result).

(** The same, with the CPU forced. *)
Definition healthy_cpu_forced : World :=
  world (Ok [lit "python3.11"]) (fun _ => true) (fun _ => None)
        (Some (lit "1")) (Ok true) None (Ok result).

(** The flag set to "true" rather than "1". *)
Definition healthy_flag_true : World :=
  world (Ok [lit "python3.11"]) (fun _ => true) (fun _ => None)
        (Some (lit "true")) (Ok true) None (Ok result).

(** No [venv/lib] directory beside the script: [os.listdir] raises. *)
Definition no_venv : World :=
  world (Err (FileNotFoundError
                (lit "[Errno 2] No such file or directory: '/app/src/services/venv/lib'")))
        (fun _ => true) (fun _ => None) None (Ok false) None (Ok result).

(** The inference library is not installed. *)
Definition no_whisper : World :=
  world (Ok []) (fun _ => false)
        (fun m => if pystr_eqb m (lit "whisper")
                  then Some (ImportError (lit "No module named 'whisper'"))
                  else None)
        None (Ok false) None (Ok result).

(** Everything installed, and no audio file anywhere. *)
Definition no_audio : World :=
  world (Ok [lit "python3.11"])
        (fun p => pystr_eqb p (lit "/app/src/services/venv/lib/python3.11/site-packages"))
        (fun _ => None) None (Ok false) None (Ok result).

(** The model fails while transcribing. *)
Definition failing_model : World :=
  world (Ok [lit "python3.11"]) (fun _ => true) (fun _ => None) None
        (Ok false) None (Err (OtherException (lit "Failed to load audio"))).

Definition prog : pystr := lit "whisper_transcribe.py".
Definition audio : pystr := lit "clip.wav".

(** A [venv/lib] with three entries. *)
Definition listing : list pystr :=
  [lit "python2.7"; lit "python3.9"; lit "python3.11"].

(** The model cannot be loaded. *)
Definition load_fails : World :=
  world (Ok [lit "python3.11"]) (fun _ => true) (fun _ => None) None
        (Ok true) (Some (OtherException (lit "CUDA out of memory")))
        (Ok result).

(** The runtime fails when asked for a GPU. *)
Definition gpu_query_fails : World :=
  world (Ok [lit "python3.11"]) (fun _ => true) (fun _ => None) None
        (Err (OtherException (lit "CUDA driver initialization failed")))
        None (Ok result).

(** [torch] fails to load a shared library: not an [ImportError]. *)
Definition torch_breaks : World :=
  world (Ok [lit "python3.11"]) (fun _ => true)
        (fun m => if pystr_eqb m (lit "torch")
                  then Some (OtherException (lit "libcudart.so: cannot open shared object file"))
                  else None)
        None (Ok false) None (Ok result).

(** The model hands back a result with no [segments]. *)
Definition no_segments : World :=
  world (Ok [lit "python3.11"]) (fun _ => true) (fun _ => None) None
        (Ok false) None (Ok (PDict [(lit "text", PStr xin_chao)])).

(** The world [W] with another encoding of standard output. *)
Definition on_stdout (encodes : N -> bool) (W : World) : World :=
  {| script_dir := script_dir W;
     listdir := listdir W;
     path_exists := path_exists W;
     import_module := import_module W;
     environ := environ W;
     cuda_is_available := cuda_is_available W;
     load_model := load_model W;
     model_transcribe := model_transcribe W;
     py_repr := py_repr W;
     fault_text := fault_text W;
     stdout_encodes := encodes;
     encode_error_text := encode_error_text W;
     traceback_text := traceback_text W |}.

(** An installation in working order whose standard output is ASCII. *)
Definition ascii_terminal : World := on_stdout (fun _ => false) healthy.

(** A file name that is not valid UTF-8 reaches [sys.argv] with a lone
    surrogate in it. *)
Definition odd_audio : pystr := lit "clip" ++ [56448%N] ++ lit ".wav".


(** An installation in working order, without a GPU. *)
Definition no_gpu : World :=
  world (Ok [lit "python3.11"]) (fun _ => true) (fun _ => None) None
        (Ok false) None (Ok result).


(** A result whose second segment is [None]. *)
Definition broken_result : pyval :=
  PDict [(lit "text", PStr xin_chao);
         (lit "segments",
          PList [segment_without_words; PNone; segment_with_words])].

End Samples.


(* ================================================================== *)
(** ** Strings *)
(* ================================================================== *)

Lemma pystr_eqb_eq (a b : pystr) : pystr_eqb a b = true <-> a = b.
Proof.
  revert b; induction a as [|x a IH]; intros [|y b]; simpl;
    try (split; [discriminate | discriminate]); try tauto.
  rewrite andb_true_iff, N.eqb_eq, IH.
  split; [intros [-> ->]; reflexivity | intros E; inversion E; auto].
Qed.

Lemma startswith_app (p s : pystr) : startswith (p ++ s) p = true.
Proof.
  induction p as [|c p IH]; simpl; [reflexivity|].
  rewrite N.eqb_refl; exact IH.
Qed.

Lemma is_substring_here (p s : pystr) :
  startswith s p = true -> is_substring p s = true.
Proof. intros H; destruct s; simpl in *; rewrite H; reflexivity. Qed.

Lemma is_substring_suffix (a p : pystr) : is_substring p (a ++ p) = true.
Proof.
  induction a as [|c a IH]; simpl.
  - apply is_substring_here.
    pose proof (startswith_app p []) as H.
    rewrite app_nil_r in H; exact H.
  - rewrite IH; apply orb_true_r.
Qed.

Lemma lstrip_split (s : pystr) :
  exists l, s = l ++ lstrip s /\ Forall (fun c => is_whitespace c = true) l.
Proof.
  induction s as [|c s [l [E F]]]; simpl.
  - exists []; split; [reflexivity | constructor].
  - destruct (is_whitespace c) eqn:Hc.
    + exists (c :: l); split; [simpl; congruence | constructor; assumption].
    + exists []; split; [reflexivity | constructor].
Qed.

Lemma lstrip_head (s : pystr) (c : N) (s' : pystr) :
  lstrip s = c :: s' -> is_whitespace c = false.
Proof.
  induction s as [|x s IH]; simpl; [discriminate|].
  destruct (is_whitespace x) eqn:Hx; [exact IH|].
  intros E; inversion E; subst; exact Hx.
Qed.

(** [strip] takes white space, and only white space, off both ends. *)
Lemma strip_trim_of (s : pystr) : trim_of s (strip s).
Proof.
  unfold strip, rstrip.
  destruct (lstrip_split s) as [l [El Fl]].
  destruct (lstrip_split (rev (lstrip s))) as [r [Er Fr]].
  assert (Eu : lstrip s = rev (lstrip (rev (lstrip s))) ++ rev r).
  { rewrite <- rev_app_distr, <- Er, rev_involutive; reflexivity. }
  split; [split|].
  - intros c s' E. rewrite E in Eu. simpl in Eu.
    eapply lstrip_head; exact Eu.
  - intros c s' E.
    apply (f_equal (@rev N)) in E.
    rewrite rev_involutive, rev_app_distr in E; simpl in E.
    eapply lstrip_head; exact E.
  - exists l, (rev r); split; [|split].
    + rewrite <- Eu; exact El.
    + exact Fl.
    + apply Forall_rev; exact Fr.
Qed.

Lemma strip_trimmed (s : pystr) : trimmed (strip s).
Proof. exact (proj1 (strip_trim_of s)). Qed.

(* ================================================================== *)
(** ** Pure computations that may raise *)
(* ================================================================== *)

Lemma res_bind_ok {A B} (r : res A) (k : A -> res B) (b : B) :
  res_bind r k = Ok b -> exists a, r = Ok a /\ k a = Ok b.
Proof. destruct r; simpl; [eauto | discriminate]. Qed.

Lemma res_map_ok {A B} (f : A -> res B) (l : list A) (l' : list B) :
  res_map f l = Ok l' <-> Forall2 (fun x y => f x = Ok y) l l'.
Proof.
  revert l'; induction l as [|x l IH]; intros l'; simpl.
  - split; [intros E; inversion E; constructor | intros F; inversion F; auto].
  - split.
    + destruct (f x) eqn:Ex; [|discriminate].
      destruct (res_map f l) eqn:El; [|discriminate].
      intros E; inversion E; subst; constructor; [assumption|].
      apply IH; reflexivity.
    + intros F; inversion F as [|? y ? ys Hy Hys]; subst.
      rewrite Hy. apply IH in Hys. rewrite Hys. reflexivity.
Qed.

Lemma py_strip_ok (v out : pyval) :
  py_strip v = Ok out -> exists s, v = PStr s /\ out = PStr (strip s).
Proof.
  destruct v; simpl; try discriminate.
  intros E; inversion E; eauto.
Qed.

Ltac res_inv :=
  repeat match goal with
         | H : res_bind _ _ = Ok _ |- _ =>
             let a := fresh "a" in
             let Ha := fresh "Ha" in
             apply res_bind_ok in H; destruct H as [a [Ha H]]
         | H : py_strip _ = Ok _ |- _ =>
             let s := fresh "s" in
             apply py_strip_ok in H; destruct H as [s [? ?]]; subst
         | H : Ok _ = Ok _ |- _ => inversion H; clear H; subst
         end.

Lemma singleton_inj {A} (a b : A) : [a] = [b] -> a = b.
Proof. intros E; inversion E; reflexivity. Qed.

Lemma Forall2_nth_error {A B} (R : A -> B -> Prop) (l : list A) (l' : list B) :
  Forall2 R l l' ->
  forall i x, nth_error l i = Some x ->
              exists y, nth_error l' i = Some y /\ R x y.
Proof.
  induction 1 as [|a b l l' Hab _ IH]; intros [|i] x E; simpl in *;
    try discriminate.
  - inversion E; subst; eauto.
  - apply IH; exact E.
Qed.

(* ================================================================== *)
(** ** The reshaping loops *)
(* ================================================================== *)

Lemma reshape_word_iff (W : World) (win wout : pyval) :
  reshape_word W win = Ok wout <-> word_reshaped W win wout.
Proof.
  unfold reshape_word, word_reshaped; split.
  - intros H; res_inv. eauto 10.
  - intros (t & s & e & Ht & Hs & He & ->).
    rewrite Ht; cbn [res_bind py_strip]. rewrite Hs; cbn [res_bind py_strip]. rewrite He; reflexivity.
Qed.

Lemma reshape_words_iff (W : World) (sin : pyval) (ws_out : list pyval) :
  reshape_words W sin = Ok ws_out <->
  exists ws_in, input_words sin = Ok ws_in /\
                Forall2 (word_reshaped W) ws_in ws_out.
Proof.
  unfold reshape_words, input_words.
  destruct (py_contains sin (lit "words")) as [[|]|]; cbn [res_bind py_strip].
  - destruct (py_getitem sin (lit "words")) as [ws|]; cbn [res_bind py_strip].
    + destruct (py_iter ws) as [items|]; cbn [res_bind py_strip].
      * rewrite res_map_ok. split.
        -- intros F; exists items; split; [reflexivity|].
           eapply Forall2_impl; [|exact F].
           intros a b; apply reshape_word_iff.
        -- intros (ws_in & E & F); inversion E; subst.
           eapply Forall2_impl; [|exact F].
           intros a b; apply reshape_word_iff.
      * split; [discriminate | intros (? & ? & _); discriminate].
    + split; [discriminate | intros (? & ? & _); discriminate].
  - split.
    + intros E; inversion E; exists []; split; [reflexivity | constructor].
    + intros (ws_in & E & F); inversion E; subst; inversion F; reflexivity.
  - split; [discriminate | intros (? & ? & _); discriminate].
Qed.

Lemma reshape_segment_iff (W : World) (sin sout : pyval) :
  reshape_segment W sin = Ok sout <-> segment_reshaped W sin sout.
Proof.
  unfold reshape_segment, segment_reshaped; split.
  - intros H; res_inv.
    apply reshape_words_iff in Ha as (ws_in & Hin & F).
    exists ws_in; eauto 12.
  - intros (ws_in & ws_out & t & s & e & Hin & F & Ht & Hs & He & ->).
    assert (Hw : reshape_words W sin = Ok ws_out)
      by (apply reshape_words_iff; eauto).
    rewrite Hw; cbn [res_bind py_strip]. rewrite Ht; cbn [res_bind py_strip]. rewrite Hs; cbn [res_bind py_strip].
    rewrite He; reflexivity.
Qed.

(** The output of [reshape], whenever it returns one, is the record of
    the trimmed text and of one reshaped segment per segment visited. *)
Lemma reshape_iff (W : World) (result out : pyval) :
  reshape W result = Ok out <-> result_reshaped W result out.
Proof.
  unfold reshape, result_reshaped, input_segments; split.
  - intros H; res_inv.
    exists a0, a1, s; repeat split; try assumption.
    + rewrite Ha; cbn [res_bind]; assumption.
    + apply res_map_ok in Ha1.
      eapply Forall2_impl; [|exact Ha1].
      intros x y; apply reshape_segment_iff.
  - intros (segs_in & segs_out & t & Hin & F & Ht & ->).
    apply res_bind_ok in Hin as (segs & Hs & Hi).
    rewrite Hs; cbn [res_bind py_strip]. rewrite Hi; cbn [res_bind py_strip].
    assert (Hm : res_map (reshape_segment W) segs_in = Ok segs_out).
    { apply res_map_ok. eapply Forall2_impl; [|exact F].
      intros x y; apply reshape_segment_iff. }
    rewrite Hm; cbn [res_bind py_strip]. rewrite Ht; reflexivity.
Qed.

Lemma dict_lookup_keys (k : pystr) (d : list (pystr * pyval)) :
  existsb (pystr_eqb k) (dict_keys d) =
  match dict_lookup k d with
  | Some _ => true
  | None => false
  end.
Proof.
  induction d as [|[k' v] d IH]; [reflexivity|].
  cbn [dict_keys map fst existsb dict_lookup].
  destruct (pystr_eqb k k'); [reflexivity | exact IH].
Qed.

Lemma res_map_total {A B} (f : A -> res B) (l : list A) :
  Forall (fun x => exists y, f x = Ok y) l -> exists l', res_map f l = Ok l'.
Proof.
  induction 1 as [|x l [y Hy] _ [l' Hl']]; cbn [res_map].
  - eexists; reflexivity.
  - rewrite Hy, Hl'. eexists; reflexivity.
Qed.

Lemma text_ok_strip (d : list (pystr * pyval)) :
  text_ok d = true ->
  exists t, py_get (PDict d) (lit "text") (PStr []) = Ok (PStr t).
Proof.
  unfold text_ok, py_get.
  destruct (dict_lookup (lit "text") d) as [[]|]; try discriminate;
    intros _; eexists; reflexivity.
Qed.

Lemma reshape_word_total (W : World) (w : pyval) :
  word_ok w = true -> exists o, reshape_word W w = Ok o.
Proof.
  destruct w as [| | | | | |d]; try discriminate. cbn [word_ok]. intros H.
  destruct (text_ok_strip d H) as [t Ht].
  unfold reshape_word. rewrite Ht. cbn [res_bind py_strip py_get].
  destruct (dict_lookup (lit "start") d), (dict_lookup (lit "end") d);
    cbn [res_bind]; eexists; reflexivity.
Qed.

Lemma reshape_segment_total (W : World) (s : pyval) :
  segment_ok s = true -> exists o, reshape_segment W s = Ok o.
Proof.
  destruct s as [| | | | | |d]; try discriminate. cbn [segment_ok]. intros H.
  apply andb_true_iff in H as [Htext Hwords].
  destruct (text_ok_strip d Htext) as [t Ht].
  assert (Hw : exists ws, reshape_words W (PDict d) = Ok ws).
  { unfold reshape_words, py_contains, py_getitem.
    rewrite dict_lookup_keys.
    destruct (dict_lookup (lit "words") d) as [v|]; cbn [res_bind];
      [|eexists; reflexivity].
    destruct v as [| | | | |ws|]; try discriminate. cbn [py_iter res_bind].
    apply res_map_total. rewrite forallb_forall in Hwords.
    apply Forall_forall. intros w Hin.
    apply reshape_word_total, Hwords, Hin. }
  destruct Hw as [ws Hws].
  unfold reshape_segment. rewrite Hws. cbn [res_bind].
  rewrite Ht. cbn [res_bind py_strip py_get].
  destruct (dict_lookup (lit "start") d), (dict_lookup (lit "end") d);
    cbn [res_bind]; eexists; reflexivity.
Qed.

(** On a model result of the documented shape the reshaping raises
    nothing. *)
Lemma reshape_total (W : World) (r : pyval) :
  result_ok r = true -> exists out, reshape W r = Ok out.
Proof.
  destruct r as [| | | | | |d]; try discriminate. cbn [result_ok]. intros H.
  apply andb_true_iff in H as [Htext Hsegs].
  destruct (text_ok_strip d Htext) as [t Ht].
  unfold reshape, py_getitem.
  destruct (dict_lookup (lit "segments") d) as [v|]; [|discriminate].
  destruct v as [| | | | |segs|]; try discriminate. cbn [res_bind py_iter].
  assert (Hm : exists l, res_map (reshape_segment W) segs = Ok l).
  { apply res_map_total. rewrite forallb_forall in Hsegs.
    apply Forall_forall. intros s Hin.
    apply reshape_segment_total, Hsegs, Hin. }
  destruct Hm as [l Hl]. rewrite Hl. cbn [res_bind].
  rewrite Ht. cbn [res_bind py_strip]. eexists; reflexivity.
Qed.

(* ================================================================== *)
(** ** Running the script *)
(* ================================================================== *)

Ltac run_step :=
  cbv beta iota zeta delta
      [transcribe_audio transcribe_body select_device load_dependencies
       setup_environment os_listdir os_path_exists os_environ_get
       site_addsitedir import torch_cuda_is_available whisper_load_model
       transcribe_call sys_stdout_flush print print_stderr log lift bind ret
       raise sys_exit try_except negb];
  cbn [stdout stderr site_dirs calls handling fst snd].

(** The loop of [setup_environment] always runs to its end; it writes
    nothing to standard output and makes only set-up calls. *)
Lemma setup_loop_run (W : World) (entries : list pystr) (st : State) :
  exists st' extra,
    setup_loop W entries st = (Return tt, st') /\
    stdout st' = stdout st /\
    calls st' = calls st ++ extra /\
    forallb is_setup_call extra = true.
Proof.
  revert st; induction entries as [|py_ver rest IH]; intros st.
  - exists st, []; simpl; rewrite app_nil_r; auto.
  - cbn [setup_loop].
    destruct (startswith py_ver (lit "python3")); [|apply IH].
    run_step.
    destruct (path_exists W _).
    + eexists; eexists; split; [reflexivity|].
      cbn [stdout calls]; rewrite <- app_assoc.
      repeat split; reflexivity.
    + destruct (IH {| stdout := stdout st; stderr := stderr st;
                      site_dirs := site_dirs st;
                      calls := calls st ++
                        [CPathExists
                           (os_path_join (script_dir W)
                              [lit "venv"; lit "lib"; py_ver;
                               lit "site-packages"])];
                      handling := handling st |})
        as (st' & extra & E & Hout & Hcalls & Hall).
      exists st', (CPathExists
                     (os_path_join (script_dir W)
                        [lit "venv"; lit "lib"; py_ver;
                         lit "site-packages"]) :: extra).
      cbn [stdout calls] in *.
      rewrite E, Hout, Hcalls, <- app_assoc.
      repeat split; assumption.
Qed.

(** The first try block never calls [sys.exit], writes nothing to
    standard output and makes only set-up calls. *)
Lemma load_dependencies_run (W : World) (st : State) :
  exists o st' extra,
    load_dependencies W st = (o, st') /\
    (forall c, o <> SysExit c) /\
    stdout st' = stdout st /\
    calls st' = calls st ++ extra /\
    forallb is_setup_call extra = true.
Proof.
  run_step.
  destruct (listdir W _) as [entries|e].
  - match goal with
    | |- context [setup_loop W entries ?s] =>
        destruct (setup_loop_run W entries s)
          as (st1 & extra & E & Hout & Hcalls & Hall);
        rewrite E
    end.
    cbn [stdout calls] in *.
    destruct (import_module W (lit "whisper") (site_dirs st1)) as [e|].
    + do 3 eexists; split; [reflexivity|].
      cbn [stdout calls]. rewrite Hout, Hcalls, <- !app_assoc.
      repeat split; try discriminate.
      cbn [app forallb is_setup_call andb].
      rewrite forallb_app, Hall; reflexivity.
    + cbn [stdout stderr site_dirs calls handling].
      destruct (import_module W (lit "torch") (site_dirs st1)) as [e|];
        (do 3 eexists; split; [reflexivity|];
         cbn [stdout calls]; rewrite Hout, Hcalls, <- !app_assoc;
         repeat split; try discriminate;
         cbn [app forallb is_setup_call andb];
         rewrite !forallb_app, Hall; reflexivity).
  - do 3 eexists; split; [reflexivity|].
    cbn [stdout calls].
    repeat split; try discriminate.
Qed.

(** Device selection reads the flag, asks the runtime only when the flag
    does not force the CPU, and touches nothing but the call log. *)
Lemma select_device_run (W : World) (st : State) :
  exists extra,
    select_device W st = (device_outcome W, after_calls st extra) /\
    Forall (call_ok W) extra /\
    (forall c, device_outcome W <> SysExit c).
Proof.
  unfold device_outcome. run_step.
  destruct (cpu_only _).
  - eexists; split; [unfold after_calls; reflexivity|].
    split; [|discriminate]. repeat constructor.
  - destruct (cuda_is_available W) as [b|e];
      (eexists; split;
       [unfold after_calls; cbn [stdout stderr site_dirs calls handling fst];
        rewrite <- app_assoc; reflexivity|];
       split; [|discriminate]; repeat constructor).
Qed.

Ltac body_step :=
  cbv beta iota zeta delta
      [transcribe_body os_path_exists whisper_load_model transcribe_call
       sys_stdout_flush print print_stderr log lift bind ret raise sys_exit
       negb];
  cbn [stdout stderr site_dirs calls handling fst snd].

Ltac use_select_device W :=
  match goal with
  | |- context [select_device W ?s] =>
      let extra := fresh "dev_calls" in
      let E := fresh "Edev" in
      let L := fresh "Lcalls" in
      let X := fresh "Lexit" in
      destruct (select_device_run W s) as (extra & E & L & X);
      rewrite E; unfold after_calls;
      cbn [stdout stderr site_dirs calls handling fst snd]
  end.

Ltac find_in :=
  match goal with
  | |- In ?x (?x :: _) => left; reflexivity
  | |- In _ (_ :: _) => right; find_in
  | |- In _ (_ ++ _) => apply in_or_app; ((left; find_in) || (right; find_in))
  end.

Ltac calls_ok :=
  repeat (apply Forall_app; split); try assumption;
  repeat (constructor;
          [unfold call_ok; cbn; repeat split; solve [reflexivity | assumption]|]);
  try constructor.

(** The second try block, when the audio path names nothing: the
    exception of the source, raised before anything else is asked. *)
Lemma transcribe_body_missing (W : World) (audio language : pystr) (st : State) :
  path_exists W audio = false ->
  transcribe_body W audio language st =
  (Raise (FileNotFoundError (lit "Audio file not found: " ++ audio)),
   after_calls st [CPathExists audio]).
Proof. intros H. body_step. rewrite H. reflexivity. Qed.

(** The second try block never calls [sys.exit]; it loads no model but
    "small", transcribes with no options but the fixed ones, and writes to
    standard output exactly when it runs to its end: the one line of the
    reshaped result. *)
Lemma transcribe_body_run (W : World) (audio language : pystr) (st : State) :
  exists o st' extra,
    transcribe_body W audio language st = (o, st') /\
    calls st' = calls st ++ extra /\
    Forall (call_ok W) extra /\
    match o with
    | Return _ =>
        exists device result out,
          path_exists W audio = true /\
          device_outcome W = Return device /\
          load_model W (lit "small") device = None /\
          model_transcribe W (lit "small") device audio language
                           true false false = Ok result /\
          reshape W result = Ok out /\
          stdout_accepts W (json_dumps W out) = true /\
          stdout st' = stdout st ++ [json_dumps W out]
    | Raise e => stdout st' = stdout st
    | SysExit _ => False
    end.
Proof.
  body_step.
  destruct (path_exists W audio) eqn:Hfound; cbn iota.
  2:{ do 3 eexists; split; [reflexivity|]. cbn [stdout calls].
      repeat split; calls_ok. }
  use_select_device W.
  destruct (device_outcome W) as [device|e|c] eqn:Hdev;
    [| | exfalso; eapply Lexit; reflexivity].
  2:{ do 3 eexists; split; [reflexivity|]. cbn [stdout calls].
      rewrite <- app_assoc. repeat split; calls_ok. }
  destruct (load_model W (lit "small") device) as [e|] eqn:Hload.
  { do 3 eexists; split; [reflexivity|]. cbn [stdout calls].
    rewrite <- !app_assoc. repeat split; calls_ok. }
  destruct (model_transcribe W (lit "small") device audio language
                             true false false) as [result|e] eqn:Hres.
  2:{ do 3 eexists; split; [reflexivity|]. cbn [stdout calls].
      rewrite <- !app_assoc. repeat split; calls_ok. }
  destruct (reshape W result) as [out|e] eqn:Hout.
  2:{ do 3 eexists; split; [reflexivity|]. cbn [stdout calls].
      rewrite <- !app_assoc. repeat split; calls_ok. }
  destruct (stdout_accepts W (json_dumps W out)) eqn:Hprint.
  2:{ do 3 eexists; split; [reflexivity|]. cbn [stdout calls].
      rewrite <- !app_assoc. repeat split; calls_ok. }
  do 3 eexists; split; [reflexivity|]. cbn [stdout calls].
  rewrite <- !app_assoc.
  split; [reflexivity|].
  split; [calls_ok|].
  exists device, result, out; auto 10.
Qed.


Ltac main_step :=
  cbv beta iota zeta delta
      [run main transcribe_audio print sys_exit bind ret try_except
       report_end uncaught_end encode_error enter_handler leave_handler];
  cbn [stdout stderr site_dirs calls handling fst snd].

(** An ASCII text is written whatever the encoding of standard output. *)
Lemma stdout_accepts_ascii (W : World) (s : pystr) :
  is_ascii s = true -> stdout_accepts W s = true.
Proof.
  unfold is_ascii, stdout_accepts. rewrite !forallb_forall.
  intros H c Hin. rewrite (H c Hin). reflexivity.
Qed.

(** Fewer than two entries in [sys.argv]: the payload is printed and the
    script exits before anything else happens. *)
Lemma run_missing_argument (W : World) (argv : list pystr) :
  (List.length argv < 2)%nat ->
  run W argv =
  {| final_status := Exited 1;
     final_state :=
       {| stdout := [json_dumps W (error_payload (lit "No audio file provided"))];
          stderr := []; site_dirs := []; calls := []; handling := None |} |}.
Proof.
  assert (Hline : stdout_accepts
                    W (json_dumps W (error_payload (lit "No audio file provided")))
                  = true)
    by (apply stdout_accepts_ascii; reflexivity).
  destruct argv as [|prog [|audio rest]]; cbn [List.length]; intros H;
    [| | lia]; main_step; rewrite Hline; reflexivity.
Qed.

(** An [ImportError] in the first try block is reported. *)
Lemma run_import_error (W : World) (prog audio : pystr) (rest : list pystr)
      (e : exn) (st1 : State) :
  load_dependencies W initial_state = (Raise e, st1) ->
  is_ImportError e = true ->
  run W (prog :: audio :: rest) =
  report_end W e (lit "Failed to import required modules: " ++ exn_str W e) st1.
Proof.
  intros E Hc. main_step. rewrite E, Hc.
  cbn [stdout stderr site_dirs calls handling].
  destruct (stdout_accepts W _); reflexivity.
Qed.

(** Any other exception in the first try block is caught by nobody. *)
Lemma run_setup_escape (W : World) (prog audio : pystr) (rest : list pystr)
      (e : exn) (st1 : State) :
  load_dependencies W initial_state = (Raise e, st1) ->
  is_ImportError e = false ->
  run W (prog :: audio :: rest) = uncaught_end W e st1.
Proof. intros E Hc. main_step. rewrite E, Hc. reflexivity. Qed.

(** An exception in the second try block is reported. *)
Lemma run_body_error (W : World) (prog audio : pystr) (rest : list pystr)
      (e : exn) (st1 st2 : State) :
  dependencies_loaded W st1 ->
  transcribe_body W audio (language_argument rest) st1 = (Raise e, st2) ->
  run W (prog :: audio :: rest) = report_end W e (exn_str W e) st2.
Proof.
  unfold dependencies_loaded. intros E1 E2. main_step.
  rewrite E1; cbn iota. rewrite E2.
  cbn [is_Exception stdout stderr site_dirs calls handling].
  destruct (stdout_accepts W _); reflexivity.
Qed.

(** A second try block that runs to its end ends the run with status 0. *)
Lemma run_body_return (W : World) (prog audio : pystr) (rest : list pystr)
      (st1 st2 : State) :
  dependencies_loaded W st1 ->
  transcribe_body W audio (language_argument rest) st1 = (Return tt, st2) ->
  run W (prog :: audio :: rest) =
  {| final_status := Exited 0; final_state := st2 |}.
Proof.
  unfold dependencies_loaded. intros E1 E2. main_step.
  rewrite E1; cbn iota. rewrite E2. reflexivity.
Qed.

Lemma dependencies_loaded_stdout (W : World) (st1 : State) :
  dependencies_loaded W st1 -> stdout st1 = [].
Proof.
  unfold dependencies_loaded; intros E.
  destruct (load_dependencies_run W initial_state)
    as (o & st' & extra & E' & _ & Hout & _).
  rewrite E in E'; inversion E'; subst. exact Hout.
Qed.

(* ================================================================== *)
(** ** The JSON encoder *)
(* ================================================================== *)

Lemma escape_char_plain (c : N) : is_plain c = true -> escape_char c = [c].
Proof.
  unfold is_plain, escape_char.
  rewrite !andb_true_iff, !negb_true_iff, N.leb_le, !N.eqb_neq.
  intros [[H34 H92] H32].
  repeat match goal with
         | |- context [(c =? ?k)%N] =>
             destruct (N.eqb_spec c k) as [->|_]; [lia || contradiction|]
         end.
  destruct (N.ltb_spec c 32); [lia | reflexivity].
Qed.

(** Code points outside ASCII are written unescaped. *)
Lemma escape_char_non_ascii (c : N) : (128 <= c)%N -> escape_char c = [c].
Proof.
  intros H; apply escape_char_plain; unfold is_plain.
  rewrite !andb_true_iff, !negb_true_iff, N.leb_le, !N.eqb_neq.
  repeat split; lia.
Qed.

Lemma escape_plain (s : pystr) :
  forallb is_plain s = true -> flat_map escape_char s = s.
Proof.
  induction s as [|c s IH]; intros H; [reflexivity|].
  cbn [forallb] in H; apply andb_true_iff in H as [Hc Hs].
  cbn [flat_map]; rewrite escape_char_plain, IH by assumption; reflexivity.
Qed.

Lemma encode_basestring_plain (s : pystr) :
  forallb is_plain s = true -> encode_basestring s = quoted s.
Proof.
  intros H; unfold encode_basestring, quoted.
  rewrite escape_plain by assumption; reflexivity.
Qed.

(** What an escaped character starts with: a backslash, or itself when
    it is plain. *)
Lemma escape_char_head (c : N) :
  exists x xs, escape_char c = x :: xs /\
               (x = 92%N \/ (x = c /\ xs = [] /\ is_plain c = true)).
Proof.
  destruct (is_plain c) eqn:Hp.
  - exists c, []; rewrite escape_char_plain by assumption; auto.
  - unfold is_plain in Hp; unfold escape_char.
    repeat match goal with
           | |- context [(c =? ?k)%N] =>
               destruct (N.eqb_spec c k) as [?|?];
               [do 2 eexists; split; [reflexivity | left; reflexivity]|]
           end.
    destruct (N.ltb_spec c 32) as [Hlt|Hge].
    + do 2 eexists; split; [reflexivity | left; reflexivity].
    + exfalso.
      cbn [negb andb] in Hp. apply N.leb_gt in Hp. lia.
Qed.

(** A plain string is read back from its encoding without ambiguity. *)
Lemma escaped_plain_unique (m : pystr) :
  forallb is_plain m = true ->
  forall (s t1 t2 : pystr),
    flat_map escape_char s ++ 34%N :: t1 = m ++ 34%N :: t2 -> s = m.
Proof.
  induction m as [|x m IH]; intros Hm s t1 t2 E.
  - destruct s as [|c s]; [reflexivity|exfalso].
    cbn [flat_map app] in E.
    destruct (escape_char_head c) as (y & ys & Ey & [Hy|(Hy & _ & Hp)]);
      rewrite Ey in E; cbn [app] in E; inversion E; subst; try discriminate.
  - cbn [forallb] in Hm; apply andb_true_iff in Hm as [Hx Hm].
    destruct s as [|c s].
    + cbn [flat_map app] in E; inversion E; subst; discriminate.
    + cbn [flat_map] in E.
      destruct (escape_char_head c) as (y & ys & Ey & [Hy|(Hy & Hys & Hp)]);
        rewrite Ey in E; cbn [app] in E; inversion E; subst.
      * discriminate.
      * f_equal. eapply IH; [assumption|]. cbn [app] in *. eassumption.
Qed.

Lemma json_error_payload (W : World) (message : pystr) :
  json_dumps W (error_payload message) = error_line message.
Proof.
  unfold error_line, error_payload, quoted, encode_basestring.
  cbn. rewrite <- !app_assoc. reflexivity.
Qed.

(** Two error payloads that print alike carry the same message, when one
    of the messages is plain. *)
Lemma error_payload_inj (W : World) (m s : pystr) :
  forallb is_plain m = true ->
  json_dumps W (error_payload s) = json_dumps W (error_payload m) ->
  s = m.
Proof.
  intros Hm E. rewrite !json_error_payload in E.
  unfold error_line, encode_basestring in E.
  rewrite <- !app_assoc in E.
  do 4 apply app_inv_head in E.
  rewrite (escape_plain m Hm) in E. cbn [app] in E.
  eapply escaped_plain_unique; eassumption.
Qed.

Lemma hex_digit_ascii (n : N) : (n < 16)%N -> (hex_digit n < 128)%N.
Proof.
  intros H; unfold hex_digit. destruct (N.ltb_spec n 10); lia.
Qed.

(** Escaping neither drops nor adds a code point outside ASCII. *)
Lemma escape_char_non_ascii_kept (c : N) :
  non_ascii (escape_char c) = non_ascii [c].
Proof.
  destruct (N.leb_spec 128 c) as [Hge|Hlt].
  - rewrite escape_char_non_ascii by assumption; reflexivity.
  - unfold non_ascii at 2; cbn [filter].
    destruct (N.leb_spec 128 c) as [?|_]; [lia|].
    unfold escape_char.
    repeat match goal with
           | |- context [(c =? ?k)%N] =>
               destruct (N.eqb_spec c k) as [?|?]; [reflexivity|]
           end.
    destruct (N.ltb_spec c 32) as [H32|H32].
    + unfold non_ascii; cbn [lit app filter N_of_ascii].
      assert (H1 : (hex_digit (c / 16) < 128)%N).
      { apply hex_digit_ascii.
        apply N.Div0.div_lt_upper_bound; lia. }
      assert (H2 : (hex_digit (c mod 16) < 128)%N).
      { apply hex_digit_ascii. apply N.mod_lt; lia. }
      cbn.
      destruct (N.leb_spec 128 (hex_digit (c / 16))); [lia|].
      destruct (N.leb_spec 128 (hex_digit (c mod 16))); [lia|].
      reflexivity.
    + unfold non_ascii; cbn [filter].
      destruct (N.leb_spec 128 c); [lia | reflexivity].
Qed.

Lemma non_ascii_app (a b : pystr) : non_ascii (a ++ b) = non_ascii a ++ non_ascii b.
Proof. apply filter_app. Qed.

Lemma encode_basestring_non_ascii (s : pystr) :
  non_ascii (encode_basestring s) = non_ascii s.
Proof.
  unfold encode_basestring. rewrite !non_ascii_app.
  change (non_ascii [34%N]) with (@nil N). rewrite app_nil_r. cbn [app].
  induction s as [|c s IH]; [reflexivity|].
  cbn [flat_map]. rewrite non_ascii_app, IH, escape_char_non_ascii_kept.
  change (c :: s) with ([c] ++ s). rewrite non_ascii_app. reflexivity.
Qed.

(** What standard output has to encode of a text is its code points
    outside ASCII. *)
Lemma stdout_accepts_non_ascii (W : World) (s : pystr) :
  stdout_accepts W s = forallb (stdout_encodes W) (non_ascii s).
Proof.
  unfold stdout_accepts, non_ascii.
  induction s as [|c s IH]; [reflexivity|].
  cbn [forallb filter]. rewrite IH.
  destruct (N.ltb_spec c 128), (N.leb_spec 128 c); try lia; reflexivity.
Qed.

(** Escaping does not change what standard output has to encode. *)
Lemma stdout_accepts_encode_basestring (W : World) (s : pystr) :
  stdout_accepts W (encode_basestring s) = stdout_accepts W s.
Proof.
  rewrite !stdout_accepts_non_ascii, encode_basestring_non_ascii. reflexivity.
Qed.

(** An error payload can be printed exactly when its message can. *)
Lemma stdout_accepts_error_payload (W : World) (message : pystr) :
  stdout_accepts W (json_dumps W (error_payload message)) =
  stdout_accepts W message.
Proof.
  rewrite json_error_payload, !stdout_accepts_non_ascii.
  unfold error_line. rewrite !non_ascii_app, encode_basestring_non_ascii.
  change (non_ascii (lit "{")) with (@nil N).
  change (non_ascii (quoted (lit "error"))) with (@nil N).
  change (non_ascii (lit ": ")) with (@nil N).
  change (non_ascii (lit ", ")) with (@nil N).
  change (non_ascii (quoted (lit "text"))) with (@nil N).
  change (non_ascii (quoted [])) with (@nil N).
  change (non_ascii (quoted (lit "segments"))) with (@nil N).
  change (non_ascii (lit ": []}")) with (@nil N).
  cbn [app]. rewrite app_nil_r. reflexivity.
Qed.

(* ================================================================== *)
(** ** How a run ends *)
(* ================================================================== *)

(** A handler that starts on an empty standard output either reports
    its message or, when the message cannot be encoded, lets the
    [UnicodeEncodeError] escape with standard output still empty. *)
Lemma report_end_cases (W : World) (e0 : exn) (message : pystr) (st : State) :
  stdout st = [] ->
  if stdout_accepts W message
  then reports_error W (report_end W e0 message st) message
  else report_escapes W (report_end W e0 message st) message.
Proof.
  intros Hout. unfold report_end, reports_error, report_escapes.
  cbv zeta. rewrite stdout_accepts_error_payload.
  destruct (stdout_accepts W message);
    cbn [final_status final_state stdout]; rewrite Hout; split; reflexivity.
Qed.

(** A handler makes no call and registers nothing, and leaves on
    standard error what was there. *)
Lemma report_end_keeps (W : World) (e0 : exn) (message : pystr) (st : State) :
  calls (final_state (report_end W e0 message st)) = calls st /\
  site_dirs (final_state (report_end W e0 message st)) = site_dirs st /\
  forall line, In line (stderr st) ->
               In line (stderr (final_state (report_end W e0 message st))).
Proof.
  unfold report_end. cbv zeta.
  destruct (stdout_accepts W _); cbn [final_state calls site_dirs stderr];
    repeat split; auto.
  intros line Hin. apply in_or_app; left; exact Hin.
Qed.

(** Every run ends in one of three ways: status 0 after one line of
    output; status 1 after one error payload; or an exception nobody
    catches, which is not an [ImportError] and leaves standard output
    empty. *)
Lemma run_outcomes (W : World) (argv : list pystr) :
  let final := run W argv in
  (final_status final = Exited 0 /\
   exists out, stdout (final_state final) = [json_dumps W out]) \/
  (exists message, reports_error W final message) \/
  (exists e,
      is_ImportError e = false /\
      final_status final = Uncaught e /\
      stdout (final_state final) = []).
Proof.
  destruct argv as [|prog [|audio rest]]; cbv zeta.
  1,2: right; left; eexists; rewrite run_missing_argument by (simpl; lia);
       split; reflexivity.
  destruct (load_dependencies_run W initial_state)
    as (o & st1 & extra & E & Hexit & Hout & _).
  cbn [stdout initial_state] in Hout.
  destruct o as [[]|e|c]; [| |exfalso; eapply Hexit; reflexivity].
  - destruct (transcribe_body_run W audio (language_argument rest) st1)
      as (o2 & st2 & extra2 & E2 & _ & _ & Hcase).
    destruct o2 as [[]|e|c]; [| |contradiction].
    + left. rewrite (run_body_return W prog audio rest st1 st2 E E2).
      destruct Hcase as (device & result & out & _ & _ & _ & _ & _ & _ & Hprint).
      cbn [final_status final_state]. split; [reflexivity|].
      exists out. rewrite Hprint, Hout. reflexivity.
    + rewrite (run_body_error W prog audio rest e st1 st2 E E2).
      assert (Hempty : stdout st2 = []) by (rewrite Hcase; exact Hout).
      pose proof (report_end_cases W e (exn_str W e) st2 Hempty) as Hend.
      destruct (stdout_accepts W (exn_str W e)).
      * right; left. exists (exn_str W e). exact Hend.
      * right; right. destruct Hend as [Hs Ho].
        eexists. split; [|split; [exact Hs | exact Ho]]. reflexivity.
  - destruct (is_ImportError e) eqn:Hc.
    + rewrite (run_import_error W prog audio rest e st1 E Hc).
      pose proof (report_end_cases
                    W e (lit "Failed to import required modules: " ++ exn_str W e)
                    st1 Hout) as Hend.
      destruct (stdout_accepts W _).
      * right; left. eexists. exact Hend.
      * right; right. destruct Hend as [Hs Ho].
        eexists. split; [|split; [exact Hs | exact Ho]]. reflexivity.
    + right; right. exists e.
      rewrite (run_setup_escape W prog audio rest e st1 E Hc).
      cbn [uncaught_end final_status final_state stdout]. auto.
Qed.

(* ================================================================== *)
(** ** Failures *)
(* ================================================================== *)

(** A model that fails while transcribing: the second try block reports
    the exception's own text. *)
Example model_failure_reported :
  reports_error Samples.failing_model
                (run Samples.failing_model [Samples.prog; Samples.audio])
                (lit "Failed to load audio").
Proof. split; reflexivity. Qed.

(** C1: every failure is to be printed as an error payload before the
    script exits with status 1.  The first try block catches
    [ImportError] alone: with no [venv/lib] directory beside the script,
    [os.listdir] raises [FileNotFoundError] inside [setup_environment],
    the exception leaves the script uncaught, and nothing at all is
    written to standard output. *)
Theorem setup_failure_escapes_uncaught :
  let final := run Samples.no_venv [Samples.prog; Samples.audio] in
  (exists message, final_status final = Uncaught (FileNotFoundError message)) /\
  stdout (final_state final) = [] /\
  forall message, ~ reports_error Samples.no_venv final message.
Proof.
  cbv zeta. split; [|split].
  - eexists; reflexivity.
  - reflexivity.
  - intros message [Hstatus _]. discriminate Hstatus.
Qed.

(** C7: with no positional argument, [sys.argv] holding at most the
    script's name, the script prints the "No audio file provided"
    payload (an error string, an empty text, no segments), exits with
    status 1, and has made no call at all: no set-up, no import, no
    transcription. *)
Theorem no_argument_reported (W : World) (argv : list pystr) :
  (List.length argv < 2)%nat ->
  let final := run W argv in
  reports_error W final (lit "No audio file provided") /\
  stdout (final_state final) = [error_line (lit "No audio file provided")] /\
  calls (final_state final) = [] /\
  site_dirs (final_state final) = [] /\
  stderr (final_state final) = [].
Proof.
  intros H; cbv zeta. rewrite run_missing_argument by assumption.
  unfold reports_error; cbn [final_status final_state stdout calls site_dirs stderr].
  rewrite json_error_payload. repeat split; reflexivity.
Qed.

Lemma no_argument_reported_witness :
  (List.length [Samples.prog] < 2)%nat /\
  reports_error Samples.healthy (run Samples.healthy [Samples.prog])
                (lit "No audio file provided") /\
  calls (final_state (run Samples.healthy [Samples.prog])) = [].
Proof.
  assert (H : (List.length [Samples.prog] < 2)%nat) by (simpl; lia).
  split; [exact H|].
  destruct (no_argument_reported Samples.healthy [Samples.prog] H)
    as (Hr & _ & Hc & _).
  split; [exact Hr | exact Hc].
Defined.

(** C6 as stated: whenever the audio path names nothing, the run reports
    an error that mentions the path.  It fails when the inference library
    cannot be imported: the import is attempted first, and the payload
    printed is the one of the import failure. *)
Lemma missing_file_not_always_reported :
  path_exists Samples.no_whisper Samples.audio = false /\
  ~ reports_error_mentioning
      Samples.no_whisper
      (run Samples.no_whisper [Samples.prog; Samples.audio])
      Samples.audio.
Proof.
  split; [reflexivity|].
  intros (message & [_ Hout] & Hmention).
  assert (Hrun : stdout (final_state
                           (run Samples.no_whisper [Samples.prog; Samples.audio]))
                 = [json_dumps Samples.no_whisper
                      (error_payload
                         (lit "Failed to import required modules: No module named 'whisper'"))])
    by reflexivity.
  rewrite Hrun in Hout. apply singleton_inj in Hout.
  symmetry in Hout. apply error_payload_inj in Hout; [|reflexivity].
  subst message. discriminate Hmention.
Qed.

Lemma stdout_accepts_app (W : World) (a b : pystr) :
  stdout_accepts W (a ++ b) = stdout_accepts W a && stdout_accepts W b.
Proof. apply forallb_app. Qed.

(** The run of a command line whose audio path names nothing, once the
    first try block has run to its end. *)
Lemma run_missing_file (W : World) (prog audio : pystr) (rest : list pystr)
      (st1 : State) :
  dependencies_loaded W st1 ->
  path_exists W audio = false ->
  run W (prog :: audio :: rest) =
  report_end W (FileNotFoundError (lit "Audio file not found: " ++ audio))
             (lit "Audio file not found: " ++ audio)
             (after_calls st1 [CPathExists audio]).
Proof.
  intros Hdeps Hmissing.
  exact (run_body_error
           W prog audio rest _ st1 _ Hdeps
           (transcribe_body_missing W audio (language_argument rest) st1 Hmissing)).
Qed.

(** C6, amended: once the first try block has run to its end, an audio
    path for which [os.path.exists] is false and which standard output
    can encode makes the script print the payload "Audio file not found:
    <path>", whose message mentions the path and whose text and segments
    are empty, and exit with status 1; neither the device nor the model
    is asked for. *)
Theorem missing_file_reported (W : World) (prog audio : pystr)
        (rest : list pystr) (st1 : State) :
  dependencies_loaded W st1 ->
  path_exists W audio = false ->
  stdout_accepts W audio = true ->
  let final := run W (prog :: audio :: rest) in
  reports_error W final (lit "Audio file not found: " ++ audio) /\
  reports_error_mentioning W final audio /\
  stdout (final_state final) = [error_line (lit "Audio file not found: " ++ audio)] /\
  calls (final_state final) = calls st1 ++ [CPathExists audio].
Proof.
  intros Hdeps Hmissing Hprintable; cbv zeta.
  rewrite (run_missing_file W prog audio rest st1 Hdeps Hmissing).
  assert (Hempty : stdout (after_calls st1 [CPathExists audio]) = [])
    by exact (dependencies_loaded_stdout W st1 Hdeps).
  pose proof (report_end_cases
                W (FileNotFoundError (lit "Audio file not found: " ++ audio))
                (lit "Audio file not found: " ++ audio) _ Hempty) as Hr.
  rewrite stdout_accepts_app, Hprintable in Hr.
  rewrite (stdout_accepts_ascii W (lit "Audio file not found: ") eq_refl) in Hr.
  cbn [andb] in Hr.
  split; [exact Hr|]. split; [|split].
  - exists (lit "Audio file not found: " ++ audio).
    split; [exact Hr | apply is_substring_suffix].
  - destruct Hr as [_ Hr]. rewrite Hr, json_error_payload. reflexivity.
  - exact (proj1 (report_end_keeps W _ _ _)).
Qed.

Lemma missing_file_reported_witness :
  dependencies_loaded Samples.no_audio
                      (snd (load_dependencies Samples.no_audio initial_state)) /\
  path_exists Samples.no_audio Samples.audio = false /\
  stdout_accepts Samples.no_audio Samples.audio = true /\
  reports_error_mentioning
    Samples.no_audio
    (run Samples.no_audio [Samples.prog; Samples.audio])
    Samples.audio.
Proof.
  assert (Hdeps : dependencies_loaded
                    Samples.no_audio
                    (snd (load_dependencies Samples.no_audio initial_state)))
    by reflexivity.
  assert (Hmissing : path_exists Samples.no_audio Samples.audio = false)
    by reflexivity.
  assert (Hprintable : stdout_accepts Samples.no_audio Samples.audio = true)
    by reflexivity.
  split; [exact Hdeps|]. split; [exact Hmissing|]. split; [exact Hprintable|].
  exact (proj1 (proj2 (missing_file_reported
                         Samples.no_audio Samples.prog Samples.audio []
                         _ Hdeps Hmissing Hprintable))).
Defined.

(** A missing audio path that standard output cannot encode (a file
    name that is not valid UTF-8 reaches [sys.argv] with a lone
    surrogate) is not reported: the [print] of the handler raises
    [UnicodeEncodeError] in its turn, which nobody catches, and nothing
    is written to standard output. *)
Lemma missing_file_unprintable (W : World) (prog audio : pystr)
      (rest : list pystr) (st1 : State) :
  dependencies_loaded W st1 ->
  path_exists W audio = false ->
  stdout_accepts W audio = false ->
  report_escapes W (run W (prog :: audio :: rest))
                 (lit "Audio file not found: " ++ audio).
Proof.
  intros Hdeps Hmissing Hprintable.
  rewrite (run_missing_file W prog audio rest st1 Hdeps Hmissing).
  assert (Hempty : stdout (after_calls st1 [CPathExists audio]) = [])
    by exact (dependencies_loaded_stdout W st1 Hdeps).
  pose proof (report_end_cases
                W (FileNotFoundError (lit "Audio file not found: " ++ audio))
                (lit "Audio file not found: " ++ audio) _ Hempty) as Hr.
  rewrite stdout_accepts_app, Hprintable, andb_false_r in Hr. exact Hr.
Qed.

Example odd_file_name_escapes :
  path_exists Samples.no_audio Samples.odd_audio = false /\
  (exists e, final_status (run Samples.no_audio [Samples.prog; Samples.odd_audio])
             = Uncaught (UnicodeEncodeError e)) /\
  stdout (final_state (run Samples.no_audio [Samples.prog; Samples.odd_audio])) = [].
Proof.
  split; [reflexivity|]. split; [eexists; reflexivity | reflexivity].
Qed.

(* ================================================================== *)
(** ** Success *)
(* ================================================================== *)











(* ================================================================== *)
(** ** Device, model and options *)
(* ================================================================== *)

Lemma cpu_forced_iff (W : World) :
  cpu_forced W = true <-> environ W (lit "WHISPER_CPU_ONLY") = Some (lit "1").
Proof.
  unfold cpu_forced, cpu_only.
  destruct (environ W (lit "WHISPER_CPU_ONLY")) as [v|].
  - rewrite pystr_eqb_eq. split; [intros ->; reflexivity | intros E; inversion E; reflexivity].
  - split; discriminate.
Qed.

(** The outcome of device selection, from the flag and the runtime. *)
Lemma device_outcome_eq (W : World) :
  device_outcome W =
  if cpu_forced W then Return (lit "cpu")
  else match cuda_is_available W with
       | Ok available => Return (if available then lit "cuda" else lit "cpu")
       | Err e => Raise e
       end.
Proof.
  unfold device_outcome, cpu_forced. run_step.
  destruct (cpu_only _); [reflexivity|].
  destruct (cuda_is_available W); reflexivity.
Qed.

(** Once the audio path is found and a device chosen, the second try
    block names the device on standard error and asks for the model
    "small" on it; if the model loads, it asks for the transcription. *)
Lemma transcribe_body_progress (W : World) (audio language device : pystr)
      (st : State) :
  path_exists W audio = true ->
  device_outcome W = Return device ->
  exists o st',
    transcribe_body W audio language st = (o, st') /\
    (forall c, o <> SysExit c) /\
    In (lit "Using device: " ++ device) (stderr st') /\
    In (CLoadModel (lit "small") device) (calls st') /\
    (load_model W (lit "small") device = None ->
     In (CTranscribe audio language true false false) (calls st')).
Proof.
  intros Hfound Hdev. body_step. rewrite Hfound; cbn iota.
  use_select_device W. rewrite Hdev.
  destruct (load_model W (lit "small") device) as [e|].
  { do 2 eexists; split; [reflexivity|]. cbn [stderr calls].
    repeat split; try discriminate; find_in. }
  destruct (model_transcribe W (lit "small") device audio language
                             true false false) as [result|e].
  2:{ do 2 eexists; split; [reflexivity|]. cbn [stderr calls].
      repeat split; try discriminate; try intros _; find_in. }
  destruct (reshape W result) as [out|e];
    [destruct (stdout_accepts W (json_dumps W out))|];
    (do 2 eexists; split; [reflexivity|]; cbn [stderr calls];
     repeat split; try discriminate; try intros _; find_in).
Qed.

(** After the first try block, the run keeps what the second try block
    wrote to standard error and leaves the call log as that block left
    it. *)
Lemma run_after_dependencies (W : World) (prog audio : pystr)
      (rest : list pystr) (o : outcome unit) (st1 st2 : State) :
  dependencies_loaded W st1 ->
  transcribe_body W audio (language_argument rest) st1 = (o, st2) ->
  (forall c, o <> SysExit c) ->
  (forall line, In line (stderr st2) ->
                In line (stderr (final_state (run W (prog :: audio :: rest))))) /\
  calls (final_state (run W (prog :: audio :: rest))) = calls st2.
Proof.
  intros Hdeps Hbody Hexit.
  destruct o as [[]|e|c]; [| |exfalso; eapply Hexit; reflexivity].
  - rewrite (run_body_return W prog audio rest st1 st2 Hdeps Hbody).
    split; [intros line Hin; exact Hin | reflexivity].
  - rewrite (run_body_error W prog audio rest e st1 st2 Hdeps Hbody).
    destruct (report_end_keeps W e (exn_str W e) st2) as (Hc & _ & Hs).
    split; [exact Hs | exact Hc].
Qed.

Lemma setup_calls_harmless (W : World) (l : list call) :
  forallb is_setup_call l = true -> Forall (call_ok W) l.
Proof.
  induction l as [|c l IH]; cbn [forallb]; intros H; [constructor|].
  apply andb_true_iff in H as [Hc Hl].
  constructor; [|exact (IH Hl)].
  destruct c; try discriminate; repeat split.
Qed.

(** No run ever loads another model than "small", loads it on another
    device than the selected one, or transcribes with other options than
    the fixed ones. *)
Lemma run_calls (W : World) (argv : list pystr) :
  Forall (call_ok W) (calls (final_state (run W argv))).
Proof.
  destruct argv as [|prog [|audio rest]].
  1,2: rewrite run_missing_argument by (simpl; lia); constructor.
  destruct (load_dependencies_run W initial_state)
    as (o & st1 & extra & E & Hexit & _ & Hcalls & Hsetup).
  cbn [calls initial_state app] in Hcalls.
  apply (setup_calls_harmless W) in Hsetup.
  destruct o as [[]|e|c]; [| |exfalso; eapply Hexit; reflexivity].
  - destruct (transcribe_body_run W audio (language_argument rest) st1)
      as (o2 & st2 & extra2 & E2 & Hcalls2 & Hbody & Hcase).
    assert (Hexit2 : forall c, o2 <> SysExit c)
      by (intros c ->; exact Hcase).
    destruct (run_after_dependencies W prog audio rest o2 st1 st2 E E2 Hexit2)
      as [_ ->].
    rewrite Hcalls2, Hcalls. apply Forall_app; split; assumption.
  - destruct (is_ImportError e) eqn:Hc.
    + rewrite (run_import_error W prog audio rest e st1 E Hc),
              (proj1 (report_end_keeps W _ _ _)), Hcalls.
      assumption.
    + rewrite (run_setup_escape W prog audio rest e st1 E Hc).
      cbn [uncaught_end final_state calls]. rewrite Hcalls. assumption.
Qed.

(** C2: whatever the environment, once the variable WHISPER_CPU_ONLY
    holds "1" or the runtime answers whether a GPU is available, device
    selection returns a device: "cpu", never "cuda", when the variable
    holds "1", and otherwise "cuda" exactly when a GPU is reported and
    "cpu" exactly when none is.  Every model a run loads is loaded on
    that device, and a run that gets to the selection names it on
    standard error. *)
Theorem device_selected_as_specified (W : World) (st : State) (gpu : bool) :
  environ W (lit "WHISPER_CPU_ONLY") = Some (lit "1") \/
  cuda_is_available W = Ok gpu ->
  exists device,
    (exists asked,
        select_device W st = (Return device, after_calls st asked)) /\
    (environ W (lit "WHISPER_CPU_ONLY") = Some (lit "1") ->
     device = lit "cpu" /\ device <> lit "cuda") /\
    (environ W (lit "WHISPER_CPU_ONLY") <> Some (lit "1") ->
     (device = lit "cuda" <-> gpu = true) /\
     (device = lit "cpu" <-> gpu = false)) /\
    (forall argv name d,
        In (CLoadModel name d) (calls (final_state (run W argv))) ->
        d = device) /\
    (forall prog audio rest st1,
        dependencies_loaded W st1 ->
        path_exists W audio = true ->
        In (lit "Using device: " ++ device)
           (stderr (final_state (run W (prog :: audio :: rest)))) /\
        In (CLoadModel (lit "small") device)
           (calls (final_state (run W (prog :: audio :: rest))))).
Proof.
  intros Hcase.
  assert (Hflag : cpu_forced W = true \/
                  (cpu_forced W = false /\ cuda_is_available W = Ok gpu)).
  { destruct (cpu_forced W) eqn:E; [left; reflexivity|].
    right. split; [reflexivity|].
    destruct Hcase as [Hone|Hgpu]; [|exact Hgpu].
    apply cpu_forced_iff in Hone. congruence. }
  exists (specified_device (cpu_forced W) gpu).
  assert (Hdev : device_outcome W = Return (specified_device (cpu_forced W) gpu)).
  { rewrite device_outcome_eq. unfold specified_device.
    destruct Hflag as [->|[-> ->]]; reflexivity. }
  split; [|split; [|split; [|split]]].
  - destruct (select_device_run W st) as (asked & E & _).
    exists asked. rewrite E, Hdev. reflexivity.
  - intros Hone. apply cpu_forced_iff in Hone. rewrite Hone.
    split; [reflexivity | discriminate].
  - intros Hnot.
    assert (Hforced : cpu_forced W = false).
    { destruct (cpu_forced W) eqn:E; [|reflexivity].
      apply cpu_forced_iff in E. contradiction. }
    rewrite Hforced. unfold specified_device.
    destruct gpu; split; split; intros; try reflexivity; discriminate.
  - intros argv name d Hin.
    pose proof (run_calls W argv) as Hall.
    rewrite Forall_forall in Hall. destruct (Hall _ Hin) as (_ & _ & Hon).
    cbn in Hon. rewrite Hdev in Hon. inversion Hon; reflexivity.
  - intros prog audio rest st1 Hdeps Hfound.
    destruct (transcribe_body_progress W audio (language_argument rest)
                                       _ st1 Hfound Hdev)
      as (o & st2 & Hbody & Hexit & Hdiag & Hload & _).
    destruct (run_after_dependencies W prog audio rest o st1 st2
                                     Hdeps Hbody Hexit) as [Hkeep ->].
    split; [apply Hkeep; exact Hdiag | exact Hload].
Qed.

Lemma device_selected_as_specified_witness :
  (environ Samples.healthy_cpu_forced (lit "WHISPER_CPU_ONLY") = Some (lit "1") /\
   exists asked,
     select_device Samples.healthy_cpu_forced initial_state =
     (Return (lit "cpu"), after_calls initial_state asked)) /\
  (environ Samples.healthy (lit "WHISPER_CPU_ONLY") <> Some (lit "1") /\
   cuda_is_available Samples.healthy = Ok true /\
   (exists asked,
       select_device Samples.healthy initial_state =
       (Return (lit "cuda"), after_calls initial_state asked)) /\
   In (lit "Using device: cuda")
      (stderr (final_state
                 (run Samples.healthy [Samples.prog; Samples.audio])))) /\
  (environ Samples.no_gpu (lit "WHISPER_CPU_ONLY") <> Some (lit "1") /\
   cuda_is_available Samples.no_gpu = Ok false /\
   exists asked,
     select_device Samples.no_gpu initial_state =
     (Return (lit "cpu"), after_calls initial_state asked)).
Proof.
  assert (Hone : environ Samples.healthy_cpu_forced (lit "WHISPER_CPU_ONLY")
                 = Some (lit "1")) by reflexivity.
  assert (Hnot : environ Samples.healthy (lit "WHISPER_CPU_ONLY")
                 <> Some (lit "1")) by discriminate.
  assert (Hnot' : environ Samples.no_gpu (lit "WHISPER_CPU_ONLY")
                  <> Some (lit "1")) by discriminate.
  assert (Hgpu : cuda_is_available Samples.healthy = Ok true) by reflexivity.
  assert (Hnone : cuda_is_available Samples.no_gpu = Ok false) by reflexivity.
  assert (Hdeps : dependencies_loaded
                    Samples.healthy
                    (snd (load_dependencies Samples.healthy initial_state)))
    by reflexivity.
  destruct (device_selected_as_specified
              Samples.healthy_cpu_forced initial_state true (or_introl Hone))
    as (d1 & Hsel1 & Hforced1 & _).
  destruct (device_selected_as_specified
              Samples.healthy initial_state true (or_intror Hgpu))
    as (d2 & Hsel2 & _ & Hfree2 & _ & Hrun2).
  destruct (device_selected_as_specified
              Samples.no_gpu initial_state false (or_intror Hnone))
    as (d3 & Hsel3 & _ & Hfree3 & _).
  destruct (Hforced1 Hone) as [E1 _].
  pose proof (proj2 (proj1 (Hfree2 Hnot)) eq_refl) as E2.
  pose proof (proj2 (proj2 (Hfree3 Hnot')) eq_refl) as E3.
  subst d1 d2 d3.
  split; [split; [exact Hone | exact Hsel1]|].
  split.
  - split; [exact Hnot|]. split; [exact Hgpu|]. split; [exact Hsel2|].
    exact (proj1 (Hrun2 Samples.prog Samples.audio [] _ Hdeps eq_refl)).
  - split; [exact Hnot'|]. split; [exact Hnone | exact Hsel3].
Defined.

(** C10: the flag forces the CPU exactly when the variable holds the
    string "1".  With any other value ("true", "TRUE", "yes", ...) or
    with the variable unset, the device follows the runtime's answer,
    and device selection ends as it does in a world that differs only in
    having the variable unset. *)
Theorem flag_forces_cpu_only_when_1 (W : World) (st : State) :
  environ W (lit "WHISPER_CPU_ONLY") <> Some (lit "1") ->
  cpu_forced W = false /\
  (forall gpu,
      cuda_is_available W = Ok gpu ->
      exists asked,
        select_device W st =
        (Return (if gpu then lit "cuda" else lit "cpu"),
         after_calls st asked)) /\
  (forall W' : World,
      environ W' (lit "WHISPER_CPU_ONLY") = None ->
      cuda_is_available W' = cuda_is_available W ->
      fst (select_device W' st) = fst (select_device W st)) /\
  (forall V : World,
      cpu_forced V = true <->
      environ V (lit "WHISPER_CPU_ONLY") = Some (lit "1")).
Proof.
  intros Hflag.
  assert (Hforced : cpu_forced W = false).
  { destruct (cpu_forced W) eqn:E; [|reflexivity].
    apply cpu_forced_iff in E. contradiction. }
  split; [exact Hforced|]. split; [|split].
  - intros gpu Hgpu.
    destruct (select_device_run W st) as (asked & E & _).
    exists asked. rewrite E, device_outcome_eq, Hforced, Hgpu. reflexivity.
  - intros W' Hunset Hsame.
    destruct (select_device_run W st) as (asked & E & _).
    destruct (select_device_run W' st) as (asked' & E' & _).
    rewrite E, E'. cbn [fst]. rewrite !device_outcome_eq, Hforced, Hsame.
    unfold cpu_forced. rewrite Hunset. reflexivity.
  - exact cpu_forced_iff.
Qed.

Lemma flag_forces_cpu_only_when_1_witness :
  environ Samples.healthy_flag_true (lit "WHISPER_CPU_ONLY") = Some (lit "true") /\
  environ Samples.healthy_flag_true (lit "WHISPER_CPU_ONLY") <> Some (lit "1") /\
  exists asked,
    select_device Samples.healthy_flag_true initial_state =
    (Return (lit "cuda"), after_calls initial_state asked).
Proof.
  assert (H : environ Samples.healthy_flag_true (lit "WHISPER_CPU_ONLY")
              <> Some (lit "1")) by discriminate.
  split; [reflexivity|]. split; [exact H|].
  exact (proj1 (proj2 (flag_forces_cpu_only_when_1
                         Samples.healthy_flag_true initial_state H))
               true eq_refl).
Defined.

(** C9: every model a run loads is the model "small", and every
    transcription it asks for has word timestamps on, verbose off and
    fp16 off, whatever the command line and the world; and a run that
    gets as far as a device does load "small" on it, then, the model
    loaded, asks for the transcription of the audio path in the given
    language with exactly these options. *)
Theorem loads_small_and_transcribes_with_fixed_options
        (W : World) (argv : list pystr) :
  Forall loads_small (calls (final_state (run W argv))) /\
  Forall transcribes_with_fixed_options (calls (final_state (run W argv))) /\
  (forall prog audio rest st1 device,
      argv = prog :: audio :: rest ->
      dependencies_loaded W st1 ->
      path_exists W audio = true ->
      device_outcome W = Return device ->
      In (CLoadModel (lit "small") device) (calls (final_state (run W argv))) /\
      (load_model W (lit "small") device = None ->
       In (CTranscribe audio (language_argument rest) true false false)
          (calls (final_state (run W argv))))).
Proof.
  pose proof (run_calls W argv) as Hall.
  split; [|split].
  - eapply Forall_impl; [|exact Hall]. intros c (H & _); exact H.
  - eapply Forall_impl; [|exact Hall]. intros c (_ & H & _); exact H.
  - intros prog audio rest st1 device -> Hdeps Hfound Hdev.
    destruct (transcribe_body_progress W audio (language_argument rest)
                                       device st1 Hfound Hdev)
      as (o & st2 & Hbody & Hexit & _ & Hload & Htrans).
    destruct (run_after_dependencies W prog audio rest o st1 st2
                                     Hdeps Hbody Hexit) as [_ ->].
    split; assumption.
Qed.

Lemma loads_small_and_transcribes_with_fixed_options_witness :
  In (CLoadModel (lit "small") (lit "cuda"))
     (calls (final_state (run Samples.healthy [Samples.prog; Samples.audio]))) /\
  In (CTranscribe Samples.audio (lit "vi") true false false)
     (calls (final_state (run Samples.healthy [Samples.prog; Samples.audio]))).
Proof.
  assert (Hdeps : dependencies_loaded
                    Samples.healthy
                    (snd (load_dependencies Samples.healthy initial_state)))
    by reflexivity.
  destruct (proj2 (proj2 (loads_small_and_transcribes_with_fixed_options
                            Samples.healthy [Samples.prog; Samples.audio]))
                  Samples.prog Samples.audio [] _ (lit "cuda")
                  eq_refl Hdeps eq_refl eq_refl) as [Hload Htrans].
  split; [exact Hload | exact (Htrans eq_refl)].
Defined.

(* ================================================================== *)
(** ** The shape of the output *)
(* ================================================================== *)

(** C3: in the output built from a model result, the start and end of
    every word are strings, the string conversion of the model's values
    ([0] when the model gave none), while the start and end of every
    segment are the model's own values, passed through as they are
    ([0] when the model gave none), hence numbers whenever the model's
    are. *)
Theorem word_times_are_strings_segment_times_pass_through
        (W : World) (result out : pyval) :
  reshape W result = Ok out ->
  exists segs_in segs_out,
    input_segments result = Ok segs_in /\
    field out "segments" = Some (PList segs_out) /\
    Forall2
      (fun sin sout =>
         (exists s e,
             py_get sin (lit "start") (PInt 0) = Ok s /\
             py_get sin (lit "end") (PInt 0) = Ok e /\
             field sout "start" = Some s /\
             field sout "end" = Some e /\
             (is_number s = true -> is_number e = true -> numeric_times sout)) /\
         exists ws_in ws_out,
           input_words sin = Ok ws_in /\
           field sout "words" = Some (PList ws_out) /\
           Forall2
             (fun win wout =>
                string_times wout /\
                exists s e,
                  py_get win (lit "start") (PInt 0) = Ok s /\
                  py_get win (lit "end") (PInt 0) = Ok e /\
                  field wout "start" = Some (PStr (py_str W s)) /\
                  field wout "end" = Some (PStr (py_str W e)))
             ws_in ws_out)
      segs_in segs_out.
Proof.
  intros H. apply reshape_iff in H as (segs_in & segs_out & t & Hin & F & _ & ->).
  exists segs_in, segs_out. split; [exact Hin|]. split; [reflexivity|].
  eapply Forall2_impl; [|exact F].
  intros sin sout (ws_in & ws_out & ts & s & e & Hw & Fw & _ & Hs & He & ->).
  split.
  - exists s, e. repeat split; try assumption; try reflexivity.
    intros Ns Ne. exists s, e. repeat split; assumption.
  - exists ws_in, ws_out. split; [exact Hw|]. split; [reflexivity|].
    eapply Forall2_impl; [|exact Fw].
    intros win wout (tw & sw & ew & _ & Hsw & Hew & ->).
    split.
    + exists (py_str W sw), (py_str W ew). split; reflexivity.
    + exists sw, ew. repeat split; assumption.
Qed.

Lemma word_times_are_strings_segment_times_pass_through_witness :
  reshape Samples.healthy Samples.result = Ok Samples.output /\
  exists segs_out,
    field Samples.output "segments" = Some (PList segs_out) /\
    Forall numeric_times segs_out.
Proof.
  assert (E : reshape Samples.healthy Samples.result = Ok Samples.output)
    by reflexivity.
  split; [exact E|].
  destruct (word_times_are_strings_segment_times_pass_through
              Samples.healthy Samples.result Samples.output E)
    as (segs_in & segs_out & Hin & Hout & F).
  exists segs_out. split; [exact Hout|].
  inversion Hin; subst segs_in; clear Hin.
  inversion F as [|? s1 ? r1 (Hs1 & _) F1]; subst.
  inversion F1 as [|? s2 ? r2 (Hs2 & _) F2]; subst.
  inversion F2; subst.
  destruct Hs1 as (a1 & b1 & Ha1 & Hb1 & _ & _ & N1).
  destruct Hs2 as (a2 & b2 & Ha2 & Hb2 & _ & _ & N2).
  inversion Ha1; subst a1. inversion Hb1; subst b1.
  inversion Ha2; subst a2. inversion Hb2; subst b2.
  repeat constructor; [apply N1 | apply N2]; reflexivity.
Defined.

(** C4: the output built from a model result has the keys [text] and
    [segments] and no other; each of its segments has the keys [text],
    [start], [end] and [words] and no other, whatever further fields the
    model's segment carried; the text of the output, of every segment and
    of every word is the model's text with the white space taken off
    both ends; and the segments, and the words within each segment, come
    one for one in the order in which the model result holds them. *)
Theorem output_shape_and_order (W : World) (result out : pyval) :
  reshape W result = Ok out ->
  keys_of out = [lit "text"; lit "segments"] /\
  (exists t,
      py_get result (lit "text") (PStr []) = Ok (PStr t) /\
      field out "text" = Some (PStr (strip t)) /\ trim_of t (strip t)) /\
  exists segs_in segs_out,
    input_segments result = Ok segs_in /\
    field out "segments" = Some (PList segs_out) /\
    Forall2
      (fun sin sout =>
         segment_reshaped W sin sout /\
         keys_of sout = [lit "text"; lit "start"; lit "end"; lit "words"] /\
         text_trimmed sout /\
         (exists t,
             py_get sin (lit "text") (PStr []) = Ok (PStr t) /\
             field sout "text" = Some (PStr (strip t)) /\
             trim_of t (strip t)) /\
         exists ws_in ws_out,
           input_words sin = Ok ws_in /\
           field sout "words" = Some (PList ws_out) /\
           Forall2
             (fun win wout =>
                word_reshaped W win wout /\
                text_trimmed wout /\
                exists t,
                  py_get win (lit "text") (PStr []) = Ok (PStr t) /\
                  field wout "text" = Some (PStr (strip t)) /\
                  trim_of t (strip t))
             ws_in ws_out)
      segs_in segs_out.
Proof.
  intros H. apply reshape_iff in H as (segs_in & segs_out & t & Hin & F & Ht & ->).
  split; [reflexivity|]. split.
  { exists t. split; [exact Ht|]. split; [reflexivity | apply strip_trim_of]. }
  exists segs_in, segs_out. split; [exact Hin|]. split; [reflexivity|].
  eapply Forall2_impl; [|exact F].
  intros sin sout Hseg. split; [exact Hseg|].
  destruct Hseg as (ws_in & ws_out & ts & s & e & Hw & Fw & Hts & _ & _ & ->).
  split; [reflexivity|]. split; [|split].
  - exists (strip ts). split; [reflexivity | apply strip_trimmed].
  - exists ts. split; [exact Hts|]. split; [reflexivity | apply strip_trim_of].
  - exists ws_in, ws_out. split; [exact Hw|]. split; [reflexivity|].
    eapply Forall2_impl; [|exact Fw].
    intros win wout Hword. split; [exact Hword|].
    destruct Hword as (tw & sw & ew & Htw & _ & _ & ->).
    split.
    + exists (strip tw). split; [reflexivity | apply strip_trimmed].
    + exists tw. split; [exact Htw|]. split; [reflexivity | apply strip_trim_of].
Qed.

Lemma output_shape_and_order_witness :
  reshape Samples.healthy Samples.result = Ok Samples.output /\
  keys_of Samples.output = [lit "text"; lit "segments"] /\
  field Samples.output "text" = Some (PStr (strip Samples.xin_chao)).
Proof.
  assert (E : reshape Samples.healthy Samples.result = Ok Samples.output)
    by reflexivity.
  split; [exact E|].
  destruct (output_shape_and_order Samples.healthy Samples.result
                                   Samples.output E)
    as (Hkeys & (t & Ht & Hfield & _) & _).
  split; [exact Hkeys|].
  inversion Ht; subst t. exact Hfield.
Defined.

(** C8: a segment of the model result with no [words] entry gives, at
    the same position of the output, a segment whose [words] is the
    empty list and whose text (trimmed), start and end are there all the
    same. *)
Theorem segment_without_words_has_empty_words
        (W : World) (result out : pyval) (segs_in : list pyval) :
  reshape W result = Ok out ->
  input_segments result = Ok segs_in ->
  exists segs_out,
    field out "segments" = Some (PList segs_out) /\
    List.length segs_out = List.length segs_in /\
    forall i sin,
      nth_error segs_in i = Some sin ->
      py_contains sin (lit "words") = Ok false ->
      exists t s e,
        py_get sin (lit "text") (PStr []) = Ok (PStr t) /\
        py_get sin (lit "start") (PInt 0) = Ok s /\
        py_get sin (lit "end") (PInt 0) = Ok e /\
        nth_error segs_out i =
        Some (PDict [(lit "text", PStr (strip t));
                     (lit "start", s);
                     (lit "end", e);
                     (lit "words", PList [])]).
Proof.
  intros H Hin.
  apply reshape_iff in H as (segs_in' & segs_out & t & Hin' & F & _ & ->).
  rewrite Hin in Hin'; inversion Hin'; subst segs_in'; clear Hin'.
  exists segs_out. split; [reflexivity|].
  split; [symmetry; eapply Forall2_length; exact F|].
  intros i sin Hi Hnone.
  destruct (Forall2_nth_error _ _ _ F i sin Hi) as (sout & Ho & Hseg).
  destruct Hseg as (ws_in & ws_out & ts & s & e & Hw & Fw & Hts & Hs & He & ->).
  unfold input_words in Hw. rewrite Hnone in Hw. cbn [res_bind] in Hw.
  inversion Hw; subst ws_in. inversion Fw; subst ws_out.
  exists ts, s, e. auto.
Qed.

Lemma segment_without_words_has_empty_words_witness :
  reshape Samples.healthy Samples.result = Ok Samples.output /\
  py_contains Samples.segment_without_words (lit "words") = Ok false /\
  exists segs_out,
    field Samples.output "segments" = Some (PList segs_out) /\
    nth_error segs_out 1 =
    Some (PDict [(lit "text", PStr (lit "bye"));
                 (lit "start", PFloat Samples.f1_5);
                 (lit "end", PInt 2);
                 (lit "words", PList [])]).
Proof.
  assert (E : reshape Samples.healthy Samples.result = Ok Samples.output)
    by reflexivity.
  split; [exact E|]. split; [reflexivity|].
  destruct (segment_without_words_has_empty_words
              Samples.healthy Samples.result Samples.output
              [Samples.segment_with_words; Samples.segment_without_words]
              E eq_refl)
    as (segs_out & Hout & _ & Hnth).
  exists segs_out. split; [exact Hout|].
  destruct (Hnth 1%nat Samples.segment_without_words eq_refl eq_refl)
    as (t & s & e' & Ht & Hs & He & Hseg).
  inversion Ht; subst t. inversion Hs; subst s. inversion He; subst e'.
  exact Hseg.
Defined.

(* ================================================================== *)
(** ** Environment set-up *)
(* ================================================================== *)

Ltac setup_step :=
  cbv beta iota zeta delta
      [load_dependencies setup_environment os_listdir os_path_exists
       site_addsitedir import print_stderr log lift bind ret raise];
  cbn [stdout stderr site_dirs calls handling fst snd].

(** The loop of [setup_environment], entry by entry. *)
Lemma setup_loop_exact (W : World) (entries : list pystr) (st : State) :
  setup_loop W entries st =
  (Return tt,
   {| stdout := stdout st;
      stderr := stderr st ++ map added_line (registered W entries);
      site_dirs := site_dirs st ++ registered W entries;
      calls := calls st ++ map CPathExists (probed W entries) ++
               map CAddSiteDir (registered W entries);
      handling := handling st |}).
Proof.
  revert st; induction entries as [|py_ver rest IH]; intros st.
  - destruct st; cbn. rewrite !app_nil_r. reflexivity.
  - assert (Hr : registered W (py_ver :: rest) =
                 if registers W py_ver then [site_packages_of W py_ver]
                 else registered W rest).
    { unfold registered. cbn [find].
      destruct (registers W py_ver); reflexivity. }
    rewrite Hr. cbn [setup_loop probed]. unfold registers, is_python3.
    destruct (startswith py_ver (lit "python3")); cbn [andb].
    + setup_step. fold (site_packages_of W py_ver).
      destruct (path_exists W (site_packages_of W py_ver));
        cbn [stdout stderr site_dirs calls handling].
      * cbn [map app]. unfold added_line. rewrite <- !app_assoc. reflexivity.
      * rewrite IH. cbn [stdout stderr site_dirs calls handling map app].
        rewrite <- !app_assoc. reflexivity.
    + rewrite IH. reflexivity.
Qed.

(** The first try block, once the listing is known: the imports see the
    directory the listing got registered, [whisper] is imported first,
    and [torch] only if [whisper] was. *)
Lemma load_dependencies_exact (W : World) (entries : list pystr) (st : State) :
  listdir W (venv_lib W) = Ok entries ->
  load_dependencies W st =
  let st1 := state_after_setup W entries st in
  match import_module W (lit "whisper") (site_dirs st1) with
  | Some e => (Raise e, after_calls st1 [CImport (lit "whisper")])
  | None =>
      match import_module W (lit "torch") (site_dirs st1) with
      | Some e =>
          (Raise e,
           after_calls st1 [CImport (lit "whisper"); CImport (lit "torch")])
      | None =>
          (Return tt,
           after_calls st1 [CImport (lit "whisper"); CImport (lit "torch")])
      end
  end.
Proof.
  intros Hls. setup_step. fold (venv_lib W). rewrite Hls.
  rewrite setup_loop_exact. cbv zeta.
  unfold state_after_setup, after_calls.
  cbn [stdout stderr site_dirs calls handling].
  destruct (import_module W (lit "whisper") _);
    cbn [stdout stderr site_dirs calls handling].
  - rewrite <- !app_assoc. reflexivity.
  - destruct (import_module W (lit "torch") _);
      cbn [stdout stderr site_dirs calls handling];
      rewrite <- !app_assoc; reflexivity.
Qed.

(** The first try block when the listing itself fails. *)
Lemma load_dependencies_listdir_error (W : World) (e : exn) (st : State) :
  listdir W (venv_lib W) = Err e ->
  load_dependencies W st = (Raise e, after_calls st [CListdir (venv_lib W)]).
Proof.
  intros Hls. setup_step. fold (venv_lib W). rewrite Hls. reflexivity.
Qed.

(** X1: [setup_environment]'s loop always runs to its end and writes
    nothing to standard output.  It registers exactly one directory, the
    [site-packages] of the first entry of the listing whose name starts
    with "python3" and whose [site-packages] exists, and names it in one
    line on standard error; when no entry qualifies it registers nothing
    and stays silent. *)
Theorem setup_registers_first_match (W : World) (entries : list pystr)
        (st : State) :
  exists st',
    setup_loop W entries st = (Return tt, st') /\
    stdout st' = stdout st /\
    match find (registers W) entries with
    | Some py_ver =>
        In py_ver entries /\
        is_python3 py_ver = true /\
        path_exists W (site_packages_of W py_ver) = true /\
        site_dirs st' = site_dirs st ++ [site_packages_of W py_ver] /\
        stderr st' = stderr st ++ [added_line (site_packages_of W py_ver)]
    | None =>
        site_dirs st' = site_dirs st /\ stderr st' = stderr st /\
        forall py_ver, In py_ver entries -> registers W py_ver = false
    end.
Proof.
  eexists. split; [apply setup_loop_exact|]. split; [reflexivity|].
  cbn [site_dirs stderr]. unfold registered.
  destruct (find (registers W) entries) as [py_ver|] eqn:Hfind.
  - apply find_some in Hfind as [Hin Hreg].
    unfold registers in Hreg. apply andb_true_iff in Hreg as [H3 Hex].
    repeat split; assumption || reflexivity.
  - cbn [map]. rewrite !app_nil_r. repeat split.
    intros py_ver Hin. exact (find_none _ _ Hfind py_ver Hin).
Qed.

(** X2: the loop stops at the first entry it registers ([break]): the
    entries listed after it change nothing, whether state, output or
    calls. *)
Theorem setup_stops_at_first_match (W : World) (before after : list pystr)
        (hit : pystr) (st : State) :
  registers W hit = true ->
  setup_loop W (before ++ hit :: after) st = setup_loop W (before ++ [hit]) st.
Proof.
  intros Hreg. revert st. induction before as [|py_ver before IH]; intros st.
  - unfold registers in Hreg. apply andb_true_iff in Hreg as [H3 Hex].
    unfold is_python3 in H3. unfold site_packages_of in Hex.
    cbn [app setup_loop]. rewrite H3. setup_step. rewrite Hex. reflexivity.
  - cbn [app setup_loop].
    destruct (startswith py_ver (lit "python3")); [|apply IH].
    setup_step. destruct (path_exists W _); [reflexivity | apply IH].
Qed.

Lemma setup_stops_at_first_match_witness :
  registers Samples.healthy (lit "python3.9") = true /\
  setup_loop Samples.healthy Samples.listing initial_state =
  setup_loop Samples.healthy [lit "python2.7"; lit "python3.9"] initial_state.
Proof.
  assert (H : registers Samples.healthy (lit "python3.9") = true)
    by reflexivity.
  split; [exact H|].
  exact (setup_stops_at_first_match
           Samples.healthy [lit "python2.7"] [lit "python3.11"]
           (lit "python3.9") initial_state H).
Defined.

(** X3: entries of [venv/lib] whose name does not start with "python3"
    are passed over without a question to the file system: the loop
    runs on the whole listing as it does on its "python3" entries. *)
Theorem setup_ignores_other_entries (W : World) (entries : list pystr)
        (st : State) :
  setup_loop W (filter is_python3 entries) st = setup_loop W entries st.
Proof.
  revert st; induction entries as [|py_ver rest IH]; intros st;
    [reflexivity|].
  cbn [filter]. destruct (is_python3 py_ver) eqn:H3; unfold is_python3 in H3.
  - cbn [setup_loop]. rewrite H3. setup_step.
    destruct (path_exists W _); [reflexivity | apply IH].
  - cbn [setup_loop]. rewrite H3. apply IH.
Qed.

(* ================================================================== *)
(** ** Failures of the first try block *)
(* ================================================================== *)

(** X4: when [os.listdir] of [venv/lib] raises anything but an
    [ImportError] (the directory is missing, unreadable, ...), the
    exception leaves the script uncaught: nothing is written to standard
    output, standard error holds the interpreter's traceback and nothing
    else, nothing is registered, and not even the imports are
    attempted. *)
Theorem listing_failure_escapes (W : World) (prog audio : pystr)
        (rest : list pystr) (e : exn) :
  listdir W (venv_lib W) = Err e ->
  is_ImportError e = false ->
  let final := run W (prog :: audio :: rest) in
  final_status final = Uncaught e /\
  stdout (final_state final) = [] /\
  stderr (final_state final) = [traceback_text W None e] /\
  site_dirs (final_state final) = [] /\
  calls (final_state final) = [CListdir (venv_lib W)].
Proof.
  intros Hls Hclass; cbv zeta.
  rewrite (run_setup_escape W prog audio rest e _
             (load_dependencies_listdir_error W e initial_state Hls) Hclass).
  repeat split; reflexivity.
Qed.

Lemma listing_failure_escapes_witness :
  (exists e, listdir Samples.no_venv (venv_lib Samples.no_venv) = Err e /\
             is_ImportError e = false /\
             final_status (run Samples.no_venv [Samples.prog; Samples.audio])
             = Uncaught e) /\
  stderr (final_state (run Samples.no_venv [Samples.prog; Samples.audio])) =
  [lit "Traceback (most recent call last)"] /\
  calls (final_state (run Samples.no_venv [Samples.prog; Samples.audio])) =
  [CListdir (lit "/app/src/services/venv/lib")].
Proof.
  pose proof (listing_failure_escapes
                Samples.no_venv Samples.prog Samples.audio []
                (FileNotFoundError
                   (lit "[Errno 2] No such file or directory: '/app/src/services/venv/lib'"))
                eq_refl eq_refl) as H.
  cbv zeta in H. destruct H as (Hstatus & _ & Herr & _ & Hcalls).
  split; [|split; [exact Herr | exact Hcalls]].
  eexists. split; [reflexivity|]. split; [reflexivity | exact Hstatus].
Defined.

Lemma import_failure_run (W : World) (entries : list pystr) (e : exn) :
  listdir W (venv_lib W) = Ok entries ->
  import_failure W (registered W entries) = Some e ->
  load_dependencies W initial_state =
  (Raise e,
   after_calls (state_after_setup W entries initial_state)
               (match import_module W (lit "whisper") (registered W entries) with
                | Some _ => [CImport (lit "whisper")]
                | None => [CImport (lit "whisper"); CImport (lit "torch")]
                end)).
Proof.
  intros Hls Hfail. rewrite (load_dependencies_exact W entries _ Hls).
  cbv zeta. unfold import_failure in Hfail.
  cbn [state_after_setup site_dirs initial_state app].
  destruct (import_module W (lit "whisper") (registered W entries)) as [e1|].
  - inversion Hfail; reflexivity.
  - rewrite Hfail. reflexivity.
Qed.

(** X5: when one of the two imports raises an [ImportError], the
    handler of the first try block sets out to print the payload "Failed
    to import required modules: <str(e)>".  When standard output can
    encode [str(e)], as it can whenever the text is ASCII, the payload
    is the only output and the status is 1; when it cannot, the
    [UnicodeEncodeError] of that [print] is left uncaught and nothing is
    written to standard output.  Either way the import was tried with
    the directory the listing registered, [torch] is not imported once
    [whisper] has failed, and nothing of the second try block happens:
    the calls end with the failed import. *)
Theorem import_error_reported (W : World) (prog audio : pystr)
        (rest entries : list pystr) (e : exn) :
  listdir W (venv_lib W) = Ok entries ->
  import_failure W (registered W entries) = Some e ->
  is_ImportError e = true ->
  let final := run W (prog :: audio :: rest) in
  let message := lit "Failed to import required modules: " ++ exn_str W e in
  (if stdout_accepts W (exn_str W e)
   then reports_error W final message
   else report_escapes W final message) /\
  (is_ascii (exn_str W e) = true -> reports_error W final message) /\
  site_dirs (final_state final) = registered W entries /\
  calls (final_state final) =
  [CListdir (venv_lib W)] ++
  map CPathExists (probed W entries) ++
  map CAddSiteDir (registered W entries) ++
  match import_module W (lit "whisper") (registered W entries) with
  | Some _ => [CImport (lit "whisper")]
  | None => [CImport (lit "whisper"); CImport (lit "torch")]
  end.
Proof.
  intros Hls Hfail Hclass; cbv zeta.
  rewrite (run_import_error W prog audio rest e _
             (import_failure_run W entries e Hls Hfail) Hclass).
  pose proof (report_end_cases
                W e (lit "Failed to import required modules: " ++ exn_str W e)
                (after_calls (state_after_setup W entries initial_state)
                   match import_module W (lit "whisper") (registered W entries) with
                   | Some _ => [CImport (lit "whisper")]
                   | None => [CImport (lit "whisper"); CImport (lit "torch")]
                   end)
                eq_refl) as Hend.
  rewrite stdout_accepts_app in Hend.
  rewrite (stdout_accepts_ascii
             W (lit "Failed to import required modules: ") eq_refl) in Hend.
  cbn [andb] in Hend.
  destruct (report_end_keeps
              W e (lit "Failed to import required modules: " ++ exn_str W e)
              (after_calls (state_after_setup W entries initial_state)
                 match import_module W (lit "whisper") (registered W entries) with
                 | Some _ => [CImport (lit "whisper")]
                 | None => [CImport (lit "whisper"); CImport (lit "torch")]
                 end))
    as (Hcalls & Hdirs & _).
  split; [exact Hend|]. split; [|split].
  - intros Hascii.
    rewrite (stdout_accepts_ascii W _ Hascii) in Hend. exact Hend.
  - rewrite Hdirs. reflexivity.
  - rewrite Hcalls. unfold after_calls, state_after_setup.
    cbn [calls initial_state app]. rewrite <- !app_assoc. reflexivity.
Qed.

Lemma import_error_reported_witness :
  reports_error Samples.no_whisper
                (run Samples.no_whisper [Samples.prog; Samples.audio])
                (lit "Failed to import required modules: No module named 'whisper'") /\
  calls (final_state (run Samples.no_whisper [Samples.prog; Samples.audio])) =
  [CListdir (lit "/app/src/services/venv/lib"); CImport (lit "whisper")].
Proof.
  pose proof (import_error_reported
                Samples.no_whisper Samples.prog Samples.audio [] []
                (ImportError (lit "No module named 'whisper'"))
                eq_refl eq_refl eq_refl) as H.
  cbv zeta in H. destruct H as (_ & Hreport & _ & Hcalls).
  split; [exact (Hreport eq_refl) | exact Hcalls].
Defined.

(** X6: when one of the two imports raises an exception that is not an
    [ImportError] (a shared library that fails to load, say), the
    handler of the first try block does not apply: the exception leaves
    the script uncaught and nothing is printed. *)
Theorem import_crash_escapes (W : World) (prog audio : pystr)
        (rest entries : list pystr) (e : exn) :
  listdir W (venv_lib W) = Ok entries ->
  import_failure W (registered W entries) = Some e ->
  is_ImportError e = false ->
  let final := run W (prog :: audio :: rest) in
  final_status final = Uncaught e /\
  stdout (final_state final) = [] /\
  forall message, ~ reports_error W final message.
Proof.
  intros Hls Hfail Hclass; cbv zeta.
  rewrite (run_setup_escape W prog audio rest e _
             (import_failure_run W entries e Hls Hfail) Hclass).
  split; [reflexivity|]. split; [reflexivity|].
  intros message [Hstatus _]. discriminate Hstatus.
Qed.

Lemma import_crash_escapes_witness :
  final_status (run Samples.torch_breaks [Samples.prog; Samples.audio]) =
  Uncaught (OtherException (lit "libcudart.so: cannot open shared object file")) /\
  stdout (final_state (run Samples.torch_breaks [Samples.prog; Samples.audio])) = [].
Proof.
  pose proof (import_crash_escapes
                Samples.torch_breaks Samples.prog Samples.audio []
                [lit "python3.11"]
                (OtherException (lit "libcudart.so: cannot open shared object file"))
                eq_refl eq_refl eq_refl) as H.
  cbv zeta in H. destruct H as (Hstatus & Hout & _).
  split; [exact Hstatus | exact Hout].
Defined.

(* ================================================================== *)
(** ** The second try block, step by step *)
(* ================================================================== *)

Lemma device_outcome_result (W : World) :
  device_outcome W = match device_result W with
                     | Ok device => Return device
                     | Err e => Raise e
                     end.
Proof.
  rewrite device_outcome_eq. unfold device_result.
  destruct (cpu_forced W); [reflexivity|].
  destruct (cuda_is_available W); reflexivity.
Qed.

Lemma select_device_exact (W : World) (st : State) :
  select_device W st = (device_outcome W, after_calls st (device_calls W)).
Proof.
  unfold device_outcome, device_calls, cpu_forced, after_calls. run_step.
  destruct (cpu_only _); [reflexivity|].
  destruct (cuda_is_available W);
    cbn [stdout stderr site_dirs calls handling fst]; rewrite <- app_assoc; reflexivity.
Qed.

(** The second try block as a whole: how it ends, what it prints and
    which calls it makes are all decided by the first step that fails. *)
Lemma transcribe_body_exact (W : World) (audio language : pystr) (st : State) :
  transcribe_body W audio language st =
  (match body_result W audio language with
   | Ok _ => Return tt
   | Err e => Raise e
   end,
   {| stdout := stdout st ++
                match body_result W audio language with
                | Ok out => [json_dumps W out]
                | Err _ => []
                end;
      stderr := stderr st ++ body_diagnostics W audio;
      site_dirs := site_dirs st;
      calls := calls st ++ body_calls W audio language;
      handling := handling st |}).
Proof.
  unfold body_result, body_diagnostics, body_calls. body_step.
  destruct (path_exists W audio); cbn iota.
  2:{ rewrite !app_nil_r. reflexivity. }
  rewrite select_device_exact, device_outcome_result.
  unfold after_calls. cbn [stdout stderr site_dirs calls handling].
  destruct (device_result W) as [device|e]; cbn [res_bind].
  2:{ rewrite !app_nil_r, <- !app_assoc. reflexivity. }
  destruct (load_model W (lit "small") device) as [e|].
  { cbn [stdout stderr site_dirs calls handling].
    rewrite !app_nil_r, <- !app_assoc. reflexivity. }
  destruct (model_transcribe W (lit "small") device audio language
                             true false false) as [result|e]; cbn [res_bind].
  2:{ cbn [stdout stderr site_dirs calls handling].
      rewrite !app_nil_r, <- !app_assoc. reflexivity. }
  destruct (reshape W result) as [out|e]; cbn [res_bind].
  2:{ cbn [stdout stderr site_dirs calls handling].
      rewrite !app_nil_r, <- !app_assoc. reflexivity. }
  unfold print_output.
  destruct (stdout_accepts W (json_dumps W out));
    cbn [stdout stderr site_dirs calls handling];
    rewrite ?app_nil_r, <- !app_assoc; reflexivity.
Qed.

(** The calls of a run whose first try block has run to its end. *)
Lemma run_second_block (W : World) (prog audio : pystr)
      (rest : list pystr) (st1 : State) :
  dependencies_loaded W st1 ->
  calls (final_state (run W (prog :: audio :: rest))) =
  calls st1 ++ body_calls W audio (language_argument rest).
Proof.
  intros Hdeps.
  pose proof (transcribe_body_exact W audio (language_argument rest) st1) as Hbody.
  destruct (body_result W audio (language_argument rest)) as [out|e].
  - rewrite (run_body_return W prog audio rest st1 _ Hdeps Hbody). reflexivity.
  - rewrite (run_body_error W prog audio rest e st1 _ Hdeps Hbody).
    destruct (report_end_keeps W e (exn_str W e)
                {| stdout := stdout st1 ++ [];
                   stderr := stderr st1 ++ body_diagnostics W audio;
                   site_dirs := site_dirs st1;
                   calls := calls st1 ++
                            body_calls W audio (language_argument rest);
                   handling := handling st1 |}) as (-> & _).
    reflexivity.
Qed.

(** X7: once the first try block has run to its end, the run is decided
    by the first step of the second block that fails, the steps being,
    in order, the path check, the device query, the model load, the
    transcription, the reshaping and the printing of the output.  If
    none fails the output is the only line printed and the status is 0.
    Otherwise the handler sets out to print the payload carrying
    [str(e)] of that step's exception: when standard output can encode
    it, it is the only line printed and the status is 1; when it cannot,
    the [UnicodeEncodeError] of that [print] leaves the script uncaught,
    nothing is on standard output and the interpreter adds its traceback
    to standard error.  Either way the steps after the failing one are
    never asked for. *)
Theorem second_block_decides (W : World) (prog audio : pystr)
        (rest : list pystr) (st1 : State) :
  dependencies_loaded W st1 ->
  let language := language_argument rest in
  let final := run W (prog :: audio :: rest) in
  match body_result W audio language with
  | Ok out =>
      final_status final = Exited 0 /\
      stdout (final_state final) = [json_dumps W out] /\
      stderr (final_state final) = stderr st1 ++ body_diagnostics W audio
  | Err e =>
      if stdout_accepts W (exn_str W e)
      then reports_error W final (exn_str W e) /\
           stderr (final_state final) = stderr st1 ++ body_diagnostics W audio
      else report_escapes W final (exn_str W e) /\
           stderr (final_state final) =
           stderr st1 ++ body_diagnostics W audio ++
           [traceback_text
              W (Some e)
              (encode_error W (json_dumps W (error_payload (exn_str W e))))]
  end /\
  site_dirs (final_state final) = site_dirs st1 /\
  calls (final_state final) = calls st1 ++ body_calls W audio language.
Proof.
  intros Hdeps; cbv zeta.
  pose proof (transcribe_body_exact W audio (language_argument rest) st1) as Hbody.
  pose proof (dependencies_loaded_stdout W st1 Hdeps) as Hout.
  destruct (body_result W audio (language_argument rest)) as [out|e].
  - rewrite (run_body_return W prog audio rest st1 _ Hdeps Hbody).
    cbn [final_status final_state stdout stderr site_dirs calls].
    rewrite Hout. repeat split; reflexivity.
  - rewrite (run_body_error W prog audio rest e st1 _ Hdeps Hbody).
    unfold reports_error, report_escapes, report_end. cbv zeta.
    rewrite stdout_accepts_error_payload.
    destruct (stdout_accepts W (exn_str W e));
      cbn [final_status final_state stdout stderr site_dirs calls];
      rewrite Hout, ?app_nil_r, <- ?app_assoc; repeat split; reflexivity.
Qed.

Lemma second_block_decides_witness :
  reports_error Samples.failing_model
                (run Samples.failing_model [Samples.prog; Samples.audio])
                (lit "Failed to load audio") /\
  calls (final_state (run Samples.failing_model [Samples.prog; Samples.audio])) =
  calls (snd (load_dependencies Samples.failing_model initial_state)) ++
  [CPathExists Samples.audio;
   CEnvironGet (lit "WHISPER_CPU_ONLY") (lit "0");
   CCudaIsAvailable;
   CLoadModel (lit "small") (lit "cpu");
   CTranscribe Samples.audio (lit "vi") true false false] /\
  final_status (run Samples.ascii_terminal [Samples.prog; Samples.audio]) =
  Exited 1 /\
  report_escapes Samples.no_audio
                 (run Samples.no_audio [Samples.prog; Samples.odd_audio])
                 (lit "Audio file not found: " ++ Samples.odd_audio).
Proof.
  assert (Hdeps : dependencies_loaded
                    Samples.failing_model
                    (snd (load_dependencies Samples.failing_model initial_state)))
    by reflexivity.
  pose proof (second_block_decides
                Samples.failing_model Samples.prog Samples.audio [] _ Hdeps)
    as H.
  cbv zeta in H. destruct H as (Hend & _ & Hcalls).
  split; [exact (proj1 Hend)|]. split; [exact Hcalls|].
  assert (Hdeps' : dependencies_loaded
                     Samples.ascii_terminal
                     (snd (load_dependencies Samples.ascii_terminal initial_state)))
    by reflexivity.
  pose proof (second_block_decides
                Samples.ascii_terminal Samples.prog Samples.audio [] _ Hdeps')
    as H'.
  cbv zeta in H'. destruct H' as (Hend' & _).
  split; [exact (proj1 (proj1 Hend'))|].
  assert (Hdeps2 : dependencies_loaded
                     Samples.no_audio
                     (snd (load_dependencies Samples.no_audio initial_state)))
    by reflexivity.
  pose proof (second_block_decides
                Samples.no_audio Samples.prog Samples.odd_audio [] _ Hdeps2)
    as H2.
  cbv zeta in H2. destruct H2 as (Hend2 & _).
  exact (proj1 Hend2).
Defined.

Lemma dependencies_loaded_calls (W : World) (st1 : State) :
  dependencies_loaded W st1 -> forallb is_setup_call (calls st1) = true.
Proof.
  unfold dependencies_loaded; intros E.
  destruct (load_dependencies_run W initial_state)
    as (o & st' & extra & E' & _ & _ & Hcalls & Hall).
  rewrite E in E'; inversion E'; subst.
  rewrite Hcalls. exact Hall.
Qed.

(** A test that no set-up call passes finds nothing among set-up calls. *)
Lemma setup_calls_filter (P : call -> bool) (l : list call) :
  (forall c, is_setup_call c = true -> P c = false) ->
  forallb is_setup_call l = true -> filter P l = [].
Proof.
  intros HP. induction l as [|c l IH]; cbn [forallb filter]; intros H;
    [reflexivity|].
  apply andb_true_iff in H as [Hc Hl].
  rewrite (HP c Hc). exact (IH Hl).
Qed.

Lemma setup_not_load (c : call) : is_setup_call c = true -> is_load_call c = false.
Proof. destruct c; try discriminate; reflexivity. Qed.

Lemma setup_not_transcribe (c : call) :
  is_setup_call c = true -> is_transcribe_call c = false.
Proof. destruct c; try discriminate; reflexivity. Qed.

Lemma setup_not_gpu_query (c : call) :
  is_setup_call c = true -> is_gpu_query c = false.
Proof. destruct c; try discriminate; reflexivity. Qed.

(** The calls of any run: set-up calls, followed or not by the calls of
    the second try block. *)
Lemma run_calls_shape (W : World) (argv : list pystr) :
  exists setup,
    forallb is_setup_call setup = true /\
    (calls (final_state (run W argv)) = setup \/
     exists audio language,
       calls (final_state (run W argv)) = setup ++ body_calls W audio language).
Proof.
  destruct argv as [|prog [|audio rest]].
  1,2: exists []; split; [reflexivity|]; left;
       rewrite run_missing_argument by (simpl; lia); reflexivity.
  destruct (load_dependencies_run W initial_state)
    as (o & st1 & extra & E & Hexit & _ & Hcalls & Hsetup).
  cbn [calls initial_state app] in Hcalls.
  exists extra. split; [exact Hsetup|].
  destruct o as [[]|e|c]; [| |exfalso; eapply Hexit; reflexivity].
  - right. exists audio, (language_argument rest).
    rewrite (run_second_block W prog audio rest st1 E).
    rewrite Hcalls. reflexivity.
  - left. destruct (is_ImportError e) eqn:Hc.
    + rewrite (run_import_error W prog audio rest e st1 E Hc).
      destruct (report_end_keeps
                  W e (lit "Failed to import required modules: " ++ exn_str W e)
                  st1) as (-> & _).
      exact Hcalls.
    + rewrite (run_setup_escape W prog audio rest e st1 E Hc). exact Hcalls.
Qed.

(** The calls of the second try block: those before the model is asked
    for, which are neither loads nor transcriptions, followed by
    nothing, by a load alone, or by a load that succeeded, one
    transcription, and at most the flush. *)
Lemma body_calls_tail (W : World) (audio language : pystr) :
  exists front tail,
    body_calls W audio language = front ++ tail /\
    existsb is_load_call front = false /\
    existsb is_transcribe_call front = false /\
    (tail = [] \/
     (exists device, tail = [CLoadModel (lit "small") device]) \/
     (exists device back,
         tail = CLoadModel (lit "small") device ::
                CTranscribe audio language true false false :: back /\
         load_model W (lit "small") device = None /\
         existsb is_load_call back = false /\
         existsb is_transcribe_call back = false)).
Proof.
  unfold body_calls, device_calls.
  rewrite device_outcome_result; unfold device_result.
  destruct (path_exists W audio).
  2:{ exists [CPathExists audio], []. repeat split; auto. }
  destruct (cpu_forced W).
  - exists [CPathExists audio; CEnvironGet (lit "WHISPER_CPU_ONLY") (lit "0")].
    eexists. split; [reflexivity|]. split; [reflexivity|].
    split; [reflexivity|].
    destruct (load_model W (lit "small") (lit "cpu")) eqn:Hload;
      [right; left; eexists; reflexivity|].
    right; right. do 2 eexists. split; [reflexivity|].
    split; [exact Hload|].
    destruct (model_transcribe W (lit "small") (lit "cpu") audio language
                               true false false) as [result|];
      [|split; reflexivity].
    destruct (res_bind (reshape W result) (print_output W)); split; reflexivity.
  - exists [CPathExists audio; CEnvironGet (lit "WHISPER_CPU_ONLY") (lit "0");
            CCudaIsAvailable].
    destruct (cuda_is_available W) as [available|e].
    2:{ exists []. repeat split; auto. }
    eexists. split; [reflexivity|]. split; [reflexivity|].
    split; [reflexivity|].
    destruct (load_model W (lit "small")
                         (if available then lit "cuda" else lit "cpu")) eqn:Hload;
      [right; left; eexists; reflexivity|].
    right; right. do 2 eexists. split; [reflexivity|].
    split; [exact Hload|].
    destruct (model_transcribe W (lit "small")
                               (if available then lit "cuda" else lit "cpu")
                               audio language true false false) as [result|];
      [|split; reflexivity].
    destruct (res_bind (reshape W result) (print_output W)); split; reflexivity.
Qed.

Lemma existsb_filter_nil {A} (P : A -> bool) (l : list A) :
  existsb P l = false -> filter P l = [].
Proof.
  induction l as [|x l IH]; cbn [existsb filter]; intros H; [reflexivity|].
  apply orb_false_iff in H as [Hx Hl]. rewrite Hx. exact (IH Hl).
Qed.

Lemma setup_calls_existsb (P : call -> bool) (l : list call) :
  (forall c, is_setup_call c = true -> P c = false) ->
  forallb is_setup_call l = true -> existsb P l = false.
Proof.
  intros HP. induction l as [|c l IH]; cbn [forallb existsb]; intros H;
    [reflexivity|].
  apply andb_true_iff in H as [Hc Hl].
  rewrite (HP c Hc). exact (IH Hl).
Qed.

(** Where a list has one element passing a test, at a known place, any
    way of cutting the list at an element passing the test cuts it
    there. *)
Lemma split_at_only {A} (P : A -> bool) (front : list A) (x : A)
      (back before : list A) (c : A) (rest : list A) :
  existsb P front = false ->
  existsb P back = false ->
  front ++ x :: back = before ++ c :: rest ->
  P c = true ->
  before = front /\ c = x.
Proof.
  revert before. induction front as [|y front IH]; intros before Hf Hb E Hc.
  - destruct before as [|z before]; cbn [app] in E.
    + inversion E; subst. split; reflexivity.
    + inversion E as [[Hz Hrest]]. exfalso.
      assert (Hin : In c back) by (rewrite Hrest; apply in_elt).
      assert (Hex : existsb P back = true)
        by (apply existsb_exists; exists c; split; assumption).
      rewrite Hb in Hex. discriminate Hex.
  - cbn [existsb] in Hf. apply orb_false_iff in Hf as [Hy Hf].
    destruct before as [|z before]; cbn [app] in E.
    + inversion E; subst. rewrite Hc in Hy. discriminate Hy.
    + inversion E as [[Hz Hrest]].
      destruct (IH before Hf Hb Hrest Hc) as [-> ->].
      split; reflexivity.
Qed.

(** The calls of any run, around the transcription: either there is no
    transcription, and at most one load; or the calls are some calls
    that are neither loads nor transcriptions, then the one load, which
    succeeded, then the one transcription, then calls that are neither. *)
Lemma run_calls_order (W : World) (argv : list pystr) :
  let made := calls (final_state (run W argv)) in
  (existsb is_transcribe_call made = false /\
   (List.length (filter is_load_call made) <= 1)%nat) \/
  (exists front device audio language back,
      made = (front ++ [CLoadModel (lit "small") device]) ++
             CTranscribe audio language true false false :: back /\
      load_model W (lit "small") device = None /\
      existsb is_load_call front = false /\
      existsb is_transcribe_call front = false /\
      existsb is_load_call back = false /\
      existsb is_transcribe_call back = false).
Proof.
  cbv zeta.
  destruct (run_calls_shape W argv) as (setup & Hsetup & [->|(a & l & ->)]).
  - left. split.
    + exact (setup_calls_existsb _ _ setup_not_transcribe Hsetup).
    + rewrite (setup_calls_filter _ _ setup_not_load Hsetup). cbn; lia.
  - pose proof (setup_calls_existsb _ _ setup_not_transcribe Hsetup) as Hst.
    pose proof (setup_calls_existsb _ _ setup_not_load Hsetup) as Hsl.
    destruct (body_calls_tail W a l)
      as (front & tail & -> & Hfl & Hft &
          [->|[(device & ->)|(device & back & -> & Hload & Hbl & Hbt)]]).
    + left. rewrite app_nil_r, existsb_app, Hst, Hft.
      split; [reflexivity|].
      rewrite filter_app, (existsb_filter_nil _ _ Hsl),
              (existsb_filter_nil _ _ Hfl).
      cbn; lia.
    + left. rewrite !existsb_app, Hst, Hft.
      split; [reflexivity|].
      rewrite !filter_app, (existsb_filter_nil _ _ Hsl),
              (existsb_filter_nil _ _ Hfl).
      cbn; lia.
    + right. exists (setup ++ front), device, a, l, back.
      rewrite !existsb_app, Hst, Hsl, Hfl, Hft.
      repeat split; try assumption.
      rewrite <- !app_assoc. reflexivity.
Qed.

(** X8: no run loads a model more than once or asks for more than one
    transcription, and a transcription is only ever asked for right
    after a model load that succeeded: wherever a transcription stands
    in the calls of a run, the call before it is the load of the model
    "small", and that load raised nothing.  Nothing is retried, whatever
    fails. *)
Theorem nothing_is_retried (W : World) (argv : list pystr) :
  let made := calls (final_state (run W argv)) in
  (List.length (filter is_load_call made) <= 1)%nat /\
  (List.length (filter is_transcribe_call made) <=
   List.length (filter is_load_call made))%nat /\
  forall before c rest,
    made = before ++ c :: rest ->
    is_transcribe_call c = true ->
    exists earlier device,
      before = earlier ++ [CLoadModel (lit "small") device] /\
      load_model W (lit "small") device = None /\
      existsb is_load_call earlier = false /\
      existsb is_transcribe_call earlier = false.
Proof.
  cbv zeta.
  destruct (run_calls_order W argv)
    as [[Hnone Hloads] |
        (front & device & a & l & back & -> & Hload & Hfl & Hft & Hbl & Hbt)].
  - split; [exact Hloads|]. split.
    + rewrite (existsb_filter_nil _ _ Hnone). cbn; lia.
    + intros before c rest E Hc. exfalso.
      assert (Hex : existsb is_transcribe_call
                            (calls (final_state (run W argv))) = true).
      { apply existsb_exists. exists c. split; [|exact Hc].
        rewrite E. apply in_elt. }
      rewrite Hnone in Hex. discriminate Hex.
  - split; [|split].
    + rewrite !filter_app, (existsb_filter_nil _ _ Hfl).
      cbn [filter is_load_call is_transcribe_call app].
      rewrite (existsb_filter_nil _ _ Hbl). cbn; lia.
    + rewrite !filter_app, (existsb_filter_nil _ _ Hfl),
              (existsb_filter_nil _ _ Hft).
      cbn [filter is_load_call is_transcribe_call app].
      rewrite (existsb_filter_nil _ _ Hbl), (existsb_filter_nil _ _ Hbt).
      cbn; lia.
    + intros before c rest E Hc.
      assert (Hfront : existsb is_transcribe_call
                               (front ++ [CLoadModel (lit "small") device])
                       = false)
        by (rewrite existsb_app, Hft; reflexivity).
      destruct (split_at_only _ _ _ _ _ _ _ Hfront Hbt E Hc) as [-> _].
      exists front, device. repeat split; assumption.
Qed.

Lemma nothing_is_retried_witness :
  exists earlier device,
    [CListdir (lit "/app/src/services/venv/lib");
     CPathExists (lit "/app/src/services/venv/lib/python3.11/site-packages");
     CAddSiteDir (lit "/app/src/services/venv/lib/python3.11/site-packages");
     CImport (lit "whisper"); CImport (lit "torch");
     CPathExists Samples.audio;
     CEnvironGet (lit "WHISPER_CPU_ONLY") (lit "0");
     CCudaIsAvailable;
     CLoadModel (lit "small") (lit "cuda")] =
    earlier ++ [CLoadModel (lit "small") device] /\
    load_model Samples.healthy (lit "small") device = None.
Proof.
  destruct (proj2 (proj2 (nothing_is_retried
                            Samples.healthy [Samples.prog; Samples.audio]))
                  [CListdir (lit "/app/src/services/venv/lib");
                   CPathExists (lit "/app/src/services/venv/lib/python3.11/site-packages");
                   CAddSiteDir (lit "/app/src/services/venv/lib/python3.11/site-packages");
                   CImport (lit "whisper"); CImport (lit "torch");
                   CPathExists Samples.audio;
                   CEnvironGet (lit "WHISPER_CPU_ONLY") (lit "0");
                   CCudaIsAvailable;
                   CLoadModel (lit "small") (lit "cuda")]
                  (CTranscribe Samples.audio (lit "vi") true false false)
                  [CStdoutFlush] eq_refl eq_refl)
    as (earlier & device & E & Hload & _).
  exists earlier, device. split; [exact E | exact Hload].
Defined.

Lemma body_calls_forced (W : World) (audio language : pystr) :
  cpu_forced W = true ->
  filter is_gpu_query (body_calls W audio language) = [].
Proof.
  intros Hforced. unfold body_calls, device_calls.
  rewrite device_outcome_result; unfold device_result. rewrite Hforced.
  destruct (path_exists W audio); [|reflexivity].
  cbn [app res_bind].
  destruct (load_model W (lit "small") (lit "cpu")); [reflexivity|].
  destruct (model_transcribe W (lit "small") (lit "cpu") audio language
                             true false false) as [result|]; [|reflexivity].
  destruct (res_bind (reshape W result) (print_output W)); reflexivity.
Qed.

(** X9: with the flag set to "1", no run ever calls
    [torch.cuda.is_available()]: the runtime is not asked about a GPU
    at all, so a runtime that would fail on the question cannot make
    the run fail. *)
Theorem forced_cpu_never_queries_gpu (W : World) (argv : list pystr) :
  cpu_forced W = true ->
  filter is_gpu_query (calls (final_state (run W argv))) = [] /\
  ~ In CCudaIsAvailable (calls (final_state (run W argv))).
Proof.
  intros Hforced.
  assert (Hnone : filter is_gpu_query (calls (final_state (run W argv))) = []).
  { destruct (run_calls_shape W argv) as (setup & Hsetup & [->|(a & l & ->)]).
    - exact (setup_calls_filter _ _ setup_not_gpu_query Hsetup).
    - rewrite filter_app, (setup_calls_filter _ _ setup_not_gpu_query Hsetup).
      cbn [app]. apply body_calls_forced, Hforced. }
  split; [exact Hnone|].
  intros Hin.
  assert (Hf : In CCudaIsAvailable
                  (filter is_gpu_query (calls (final_state (run W argv)))))
    by (apply filter_In; split; [exact Hin | reflexivity]).
  rewrite Hnone in Hf. exact Hf.
Qed.

Lemma forced_cpu_never_queries_gpu_witness :
  cpu_forced Samples.healthy_cpu_forced = true /\
  ~ In CCudaIsAvailable
       (calls (final_state
                 (run Samples.healthy_cpu_forced [Samples.prog; Samples.audio]))).
Proof.
  assert (H : cpu_forced Samples.healthy_cpu_forced = true) by reflexivity.
  split; [exact H|].
  exact (proj2 (forced_cpu_never_queries_gpu
                  Samples.healthy_cpu_forced [Samples.prog; Samples.audio] H)).
Defined.

(** X10: a run writes at most one line to standard output.  A run that
    exits does so with status 0 or 1 and has written exactly one line; a
    run that ends on an uncaught exception has written none, and the
    exception is not an [ImportError]. *)
Theorem one_line_or_none (W : World) (argv : list pystr) :
  let final := run W argv in
  (List.length (stdout (final_state final)) <= 1)%nat /\
  (forall c, final_status final = Exited c ->
             (c = 0%Z \/ c = 1%Z) /\
             List.length (stdout (final_state final)) = 1%nat) /\
  (forall e, final_status final = Uncaught e ->
             stdout (final_state final) = [] /\ is_ImportError e = false).
Proof.
  cbv zeta.
  destruct (run_outcomes W argv)
    as [(Hs & out & Ho) | [(m & Hs & Ho) | (e & Hc & Hs & Ho)]];
    rewrite Hs, Ho; cbn [List.length].
  - split; [lia|]. split.
    + intros c E; inversion E; auto.
    + intros e E; discriminate E.
  - split; [lia|]. split.
    + intros c E; inversion E; auto.
    + intros e E; discriminate E.
  - split; [lia|]. split.
    + intros c E; discriminate E.
    + intros e' E; inversion E; subst; auto.
Qed.

(* ================================================================== *)
(** ** Edge cases of the reshaping *)
(* ================================================================== *)

Lemma res_map_first_error {A B} (f : A -> res B) (good : list A) (bad : A)
      (rest : list A) (e : exn) :
  Forall (fun x => exists y, f x = Ok y) good ->
  f bad = Err e ->
  res_map f (good ++ bad :: rest) = Err e.
Proof.
  induction 1 as [|x good [y Hy] _ IH]; intros Hbad; cbn [app res_map].
  - rewrite Hbad. reflexivity.
  - rewrite Hy, (IH Hbad). reflexivity.
Qed.

(** X11: one segment that cannot be reshaped loses the whole transcript.
    If the segments before it reshape and it raises, reshaping raises
    that same exception, whatever the segments after it are: there is no
    partial output. *)
Theorem first_bad_segment_aborts (W : World) (result : pyval)
        (good : list pyval) (bad : pyval) (rest : list pyval) (e : exn) :
  input_segments result = Ok (good ++ bad :: rest) ->
  Forall (fun s => exists o, reshape_segment W s = Ok o) good ->
  reshape_segment W bad = Err e ->
  reshape W result = Err e.
Proof.
  intros Hin Hgood Hbad. unfold input_segments in Hin.
  apply res_bind_ok in Hin as (segs & Hs & Hi).
  unfold reshape. rewrite Hs. cbn [res_bind]. rewrite Hi. cbn [res_bind].
  rewrite (res_map_first_error _ good bad rest e Hgood Hbad). reflexivity.
Qed.

Lemma first_bad_segment_aborts_witness :
  input_segments Samples.broken_result =
  Ok ([Samples.segment_without_words] ++ PNone :: [Samples.segment_with_words]) /\
  reshape_segment Samples.healthy PNone = Err (Fault (NotContainer TNone)) /\
  reshape Samples.healthy Samples.broken_result =
  Err (Fault (NotContainer TNone)).
Proof.
  assert (Hin : input_segments Samples.broken_result =
                Ok ([Samples.segment_without_words] ++
                    PNone :: [Samples.segment_with_words]))
    by reflexivity.
  assert (Hbad : reshape_segment Samples.healthy PNone =
                 Err (Fault (NotContainer TNone)))
    by reflexivity.
  split; [exact Hin|]. split; [exact Hbad|].
  apply (first_bad_segment_aborts
           Samples.healthy Samples.broken_result
           [Samples.segment_without_words] PNone
           [Samples.segment_with_words]
           (Fault (NotContainer TNone)) Hin); [|exact Hbad].
  constructor; [eexists; reflexivity | constructor].
Defined.

(** X12: a [dict] without some of the expected keys is not an error.  A
    word without [text] gives the empty text, without [start] or [end]
    the string "0"; a segment without [text] gives the empty text,
    without [start] or [end] the integer 0, and without [words] no
    words.  Keys that are present are used as in the general case. *)
Theorem missing_fields_get_defaults (W : World) (d : list (pystr * pyval)) :
  text_ok d = true ->
  let text := match dict_lookup (lit "text") d with
              | Some (PStr t) => strip t
              | _ => []
              end in
  reshape_word W (PDict d) =
  Ok (PDict [(lit "text", PStr text);
             (lit "start",
              PStr (match dict_lookup (lit "start") d with
                    | Some v => py_str W v
                    | None => lit "0"
                    end));
             (lit "end",
              PStr (match dict_lookup (lit "end") d with
                    | Some v => py_str W v
                    | None => lit "0"
                    end))]) /\
  (dict_lookup (lit "words") d = None ->
   reshape_segment W (PDict d) =
   Ok (PDict [(lit "text", PStr text);
              (lit "start",
               match dict_lookup (lit "start") d with
               | Some v => v
               | None => PInt 0
               end);
              (lit "end",
               match dict_lookup (lit "end") d with
               | Some v => v
               | None => PInt 0
               end);
              (lit "words", PList [])])).
Proof.
  intros Htext; cbv zeta. unfold text_ok in Htext. split.
  - unfold reshape_word, py_get.
    destruct (dict_lookup (lit "text") d) as [[]|]; try discriminate;
      cbn [res_bind py_strip strip];
      destruct (dict_lookup (lit "start") d), (dict_lookup (lit "end") d);
      reflexivity.
  - intros Hwords.
    unfold reshape_segment, reshape_words, py_contains, py_get.
    rewrite dict_lookup_keys, Hwords. cbn [res_bind].
    destruct (dict_lookup (lit "text") d) as [[]|]; try discriminate;
      cbn [res_bind py_strip strip];
      destruct (dict_lookup (lit "start") d), (dict_lookup (lit "end") d);
      reflexivity.
Qed.

Lemma missing_fields_get_defaults_witness :
  reshape_word Samples.healthy (PDict [(lit "word", PStr (lit " xin"))]) =
  Ok (PDict [(lit "text", PStr []);
             (lit "start", PStr (lit "0"));
             (lit "end", PStr (lit "0"))]) /\
  reshape_segment Samples.healthy (PDict [(lit "id", PInt 7)]) =
  Ok (PDict [(lit "text", PStr []);
             (lit "start", PInt 0);
             (lit "end", PInt 0);
             (lit "words", PList [])]).
Proof.
  split.
  - exact (proj1 (missing_fields_get_defaults
                    Samples.healthy [(lit "word", PStr (lit " xin"))] eq_refl)).
  - exact (proj2 (missing_fields_get_defaults
                    Samples.healthy [(lit "id", PInt 7)] eq_refl) eq_refl).
Defined.

Lemma py_get_ok_dict (v : pyval) (k : pystr) (default out : pyval) :
  py_get v k default = Ok out -> is_dict v = true.
Proof. destruct v; try discriminate; reflexivity. Qed.

(** X13: reshaping never passes over a malformed item.  Whenever it
    returns an output, the model result is a [dict], every segment
    visited is a [dict], and every word visited is a [dict]; anything
    else makes it raise. *)
Theorem reshape_needs_dicts (W : World) (result out : pyval) :
  reshape W result = Ok out ->
  is_dict result = true /\
  exists segs_in,
    input_segments result = Ok segs_in /\
    Forall (fun segment =>
              is_dict segment = true /\
              exists ws_in,
                input_words segment = Ok ws_in /\
                Forall (fun word => is_dict word = true) ws_in)
           segs_in.
Proof.
  intros H. apply reshape_iff in H as (segs_in & segs_out & t & Hin & F & Ht & _).
  split; [eapply py_get_ok_dict; exact Ht|].
  exists segs_in. split; [exact Hin|].
  clear Hin. induction F as [|sin sout segs_in segs_out Hseg _ IH];
    constructor; [|exact IH].
  destruct Hseg as (ws_in & ws_out & ts & s & e & Hw & Fw & Hts & _).
  split; [eapply py_get_ok_dict; exact Hts|].
  exists ws_in. split; [exact Hw|].
  clear Hw. induction Fw as [|win wout ws_in ws_out Hword _ IHw];
    constructor; [|exact IHw].
  destruct Hword as (tw & sw & ew & Htw & _).
  eapply py_get_ok_dict; exact Htw.
Qed.

Lemma reshape_needs_dicts_witness :
  reshape Samples.healthy Samples.result = Ok Samples.output /\
  is_dict Samples.result = true.
Proof.
  assert (E : reshape Samples.healthy Samples.result = Ok Samples.output)
    by reflexivity.
  split; [exact E|].
  exact (proj1 (reshape_needs_dicts Samples.healthy Samples.result
                                    Samples.output E)).
Defined.

(* ================================================================== *)
(** ** From the model result to the end of the run *)
(* ================================================================== *)

(** X14: when the model hands back a result of the documented shape (a
    [dict] whose [segments] is a list of [dict]s, each with an optional
    list [words] of [dict]s, every [text] present being a string), the
    reshaping cannot fail, and the run hangs on the printing alone.  When
    standard output can encode the output line, the line is the only one
    printed, standard output is flushed and the status is 0.  When it
    cannot, [print] raises [UnicodeEncodeError] inside the second try
    block: standard output is never flushed, the status is not 0, and
    the handler sets out to report that exception as any other. *)
Theorem well_formed_result_succeeds (W : World) (prog audio : pystr)
        (rest : list pystr) (st1 : State) (device : pystr) (result : pyval) :
  dependencies_loaded W st1 ->
  path_exists W audio = true ->
  device_result W = Ok device ->
  load_model W (lit "small") device = None ->
  model_transcribe W (lit "small") device audio (language_argument rest)
                   true false false = Ok result ->
  result_ok result = true ->
  let final := run W (prog :: audio :: rest) in
  exists out,
    reshape W result = Ok out /\
    if stdout_accepts W (json_dumps W out)
    then final_status final = Exited 0 /\
         stdout (final_state final) = [json_dumps W out] /\
         In CStdoutFlush (calls (final_state final))
    else final_status final <> Exited 0 /\
         ~ In CStdoutFlush (calls (final_state final)) /\
         let message := exn_str W (encode_error W (json_dumps W out)) in
         if stdout_accepts W message
         then reports_error W final message
         else report_escapes W final message.
Proof.
  intros Hdeps Hfound Hdev Hload Hres Hok; cbv zeta.
  destruct (reshape_total W result Hok) as [out Hout].
  exists out. split; [exact Hout|].
  pose proof (transcribe_body_exact W audio (language_argument rest) st1) as Hbody.
  pose proof (dependencies_loaded_stdout W st1 Hdeps) as Hempty.
  pose proof (run_second_block W prog audio rest st1 Hdeps) as Hcalls.
  assert (Hresult : body_result W audio (language_argument rest) =
                    print_output W out).
  { unfold body_result. rewrite Hfound, Hdev. cbn [res_bind].
    rewrite Hload, Hres. cbn [res_bind]. rewrite Hout. reflexivity. }
  assert (Hmade : body_calls W audio (language_argument rest) =
                  CPathExists audio ::
                  device_calls W ++
                  [CLoadModel (lit "small") device;
                   CTranscribe audio (language_argument rest) true false false] ++
                  match print_output W out with
                  | Ok _ => [CStdoutFlush]
                  | Err _ => []
                  end).
  { unfold body_calls.
    rewrite Hfound, device_outcome_result, Hdev, Hload, Hres, Hout.
    reflexivity. }
  assert (Hnoflush : ~ In CStdoutFlush
                       (calls st1 ++ CPathExists audio :: device_calls W ++
                        [CLoadModel (lit "small") device;
                         CTranscribe audio (language_argument rest)
                                     true false false])).
  { intros Hin. apply in_app_or in Hin as [Hin|Hin].
    - pose proof (dependencies_loaded_calls W st1 Hdeps) as Hsetup.
      rewrite forallb_forall in Hsetup.
      specialize (Hsetup _ Hin). discriminate Hsetup.
    - destruct Hin as [Hin|Hin]; [discriminate Hin|].
      apply in_app_or in Hin as [Hin|Hin].
      + unfold device_calls in Hin.
        destruct Hin as [Hin|Hin]; [discriminate Hin|].
        destruct (cpu_forced W); [destruct Hin|].
        destruct Hin as [Hin|[]]; discriminate Hin.
      + destruct Hin as [Hin|[Hin|[]]]; discriminate Hin. }
  rewrite Hresult in Hbody. rewrite Hcalls, Hmade.
  unfold print_output in *.
  destruct (stdout_accepts W (json_dumps W out)).
  - rewrite (run_body_return W prog audio rest st1 _ Hdeps Hbody).
    cbn [final_status final_state stdout]. rewrite Hempty.
    split; [reflexivity|]. split; [reflexivity|].
    apply in_or_app; right. apply in_cons, in_or_app; right.
    cbn [In app]. auto.
  - rewrite (run_body_error W prog audio rest _ st1 _ Hdeps Hbody).
    split; [|split].
    + unfold report_end. cbv zeta.
      destruct (stdout_accepts W _); cbn [final_status]; discriminate.
    + rewrite !app_nil_r. exact Hnoflush.
    + apply report_end_cases. cbn [stdout]. rewrite Hempty. reflexivity.
Qed.

Lemma well_formed_result_succeeds_witness :
  result_ok Samples.result = true /\
  final_status (run Samples.healthy [Samples.prog; Samples.audio]) = Exited 0 /\
  reports_error Samples.ascii_terminal
                (run Samples.ascii_terminal [Samples.prog; Samples.audio])
                (lit "codec can't encode character").
Proof.
  assert (Hdeps : dependencies_loaded
                    Samples.healthy
                    (snd (load_dependencies Samples.healthy initial_state)))
    by reflexivity.
  assert (Hdeps' : dependencies_loaded
                     Samples.ascii_terminal
                     (snd (load_dependencies Samples.ascii_terminal initial_state)))
    by reflexivity.
  assert (Hok : result_ok Samples.result = true) by reflexivity.
  split; [exact Hok|].
  pose proof (well_formed_result_succeeds
                Samples.healthy Samples.prog Samples.audio [] _
                (lit "cuda") Samples.result
                Hdeps eq_refl eq_refl eq_refl eq_refl Hok) as H.
  pose proof (well_formed_result_succeeds
                Samples.ascii_terminal Samples.prog Samples.audio [] _
                (lit "cuda") Samples.result
                Hdeps' eq_refl eq_refl eq_refl eq_refl Hok) as H'.
  cbv zeta in H, H'.
  destruct H as (out & Hout & Hend). destruct H' as (out' & Hout' & Hend').
  assert (E : Ok out = Ok Samples.output :> res pyval)
    by (rewrite <- Hout; reflexivity).
  assert (E' : Ok out' = Ok Samples.output :> res pyval)
    by (rewrite <- Hout'; reflexivity).
  inversion E; inversion E'; subst.
  split; [exact (proj1 Hend) | exact (proj2 (proj2 Hend'))].
Defined.

(** X15: a model result that is a [dict] without the key [segments] is
    not taken for an empty transcript: [result["segments"]] raises
    [KeyError], the text of the result being lost with it, and the
    handler sets out to print the payload carrying the text of that
    [KeyError].  When standard output can encode that text, as it can
    whenever the text is ASCII, the payload is the only line printed and
    the status is 1; when it cannot, the [UnicodeEncodeError] of that
    [print] is left uncaught and nothing is written to standard
    output. *)
Theorem missing_segments_reported (W : World) (prog audio : pystr)
        (rest : list pystr) (st1 : State) (device : pystr)
        (d : list (pystr * pyval)) :
  dependencies_loaded W st1 ->
  path_exists W audio = true ->
  device_result W = Ok device ->
  load_model W (lit "small") device = None ->
  model_transcribe W (lit "small") device audio (language_argument rest)
                   true false false = Ok (PDict d) ->
  dict_lookup (lit "segments") d = None ->
  let final := run W (prog :: audio :: rest) in
  let message := fault_text W (MissingKey (lit "segments")) in
  reshape W (PDict d) = Err (Fault (MissingKey (lit "segments"))) /\
  (if stdout_accepts W message
   then reports_error W final message
   else report_escapes W final message) /\
  (is_ascii message = true -> reports_error W final message).
Proof.
  intros Hdeps Hfound Hdev Hload Hres Hmissing; cbv zeta.
  assert (Hout : reshape W (PDict d) = Err (Fault (MissingKey (lit "segments")))).
  { unfold reshape, py_getitem. rewrite Hmissing. reflexivity. }
  split; [exact Hout|].
  pose proof (transcribe_body_exact W audio (language_argument rest) st1) as Hbody.
  pose proof (dependencies_loaded_stdout W st1 Hdeps) as Hempty.
  assert (Hresult : body_result W audio (language_argument rest) =
                    Err (Fault (MissingKey (lit "segments")))).
  { unfold body_result. rewrite Hfound, Hdev. cbn [res_bind].
    rewrite Hload, Hres. cbn [res_bind]. rewrite Hout. reflexivity. }
  rewrite Hresult in Hbody.
  rewrite (run_body_error W prog audio rest _ st1 _ Hdeps Hbody).
  cbn [exn_str].
  match goal with
  | |- context [report_end W ?e ?m ?st] =>
      assert (Hend : if stdout_accepts W m
                     then reports_error W (report_end W e m st) m
                     else report_escapes W (report_end W e m st) m)
        by (apply report_end_cases; cbn [stdout]; rewrite Hempty; reflexivity)
  end.
  split; [exact Hend|].
  intros Hascii. rewrite (stdout_accepts_ascii W _ Hascii) in Hend. exact Hend.
Qed.

Lemma missing_segments_reported_witness :
  reports_error Samples.no_segments
                (run Samples.no_segments [Samples.prog; Samples.audio])
                (lit "'segments'").
Proof.
  assert (Hdeps : dependencies_loaded
                    Samples.no_segments
                    (snd (load_dependencies Samples.no_segments initial_state)))
    by reflexivity.
  pose proof (missing_segments_reported
                Samples.no_segments Samples.prog Samples.audio [] _
                (lit "cpu") [(lit "text", PStr Samples.xin_chao)]
                Hdeps eq_refl eq_refl eq_refl eq_refl eq_refl) as H.
  cbv zeta in H. destruct H as (_ & _ & Hreport).
  exact (Hreport eq_refl).
Defined.

(* ================================================================== *)
(** ** The command line *)
(* ================================================================== *)

(** Of the command line only [sys.argv[1]] and [sys.argv[2]] count: the
    script's own name has no influence on the run, arguments after the
    language are ignored, and leaving the language out is the same as
    passing "vi". *)
Lemma only_path_and_language_count (W : World) (prog prog' audio : pystr) :
  (forall language extra,
      run W (prog :: audio :: language :: extra) =
      run W [prog'; audio; language]) /\
  run W [prog; audio] = run W [prog'; audio; lit "vi"].
Proof. split; reflexivity. Qed.
